(** * The MCP server facade (src/server/index.ts)

    A shallow embedding of the [Server] class: the capability guards, the
    handshake, the tool registry and the resource registry, with the
    request handlers the class installs.

    Conventions.
    - A method that mutates [this] is a function [Server -> Completion A * Server]
      and the state it leaves behind is kept also when it throws.
    - A request handler reads [this] and runs user callbacks; callbacks act on
      a world of their own, and every invocation is appended to a trace.
    - An [async] function is run to completion: a rejected promise and a
      synchronous [throw] are both an abrupt completion.
    - The registries are plain objects ([{}]): a lookup [obj[k]] finds the
      entry stored under the key or else, for the names [Object.prototype]
      holds, the member inherited from it; enumeration follows the order of
      own property keys.
    - Zod, the URL class, [String()], the message of the engine's TypeError
      and the constants of types.ts are outside this file of the sources;
      they are the fields of [Environment].
    - A callback is a function on its world that settles. Callbacks that
      never settle or that call back into the server, and several requests
      in flight at once, are not part of this account. *)

From Stdlib Require Import NArith Ascii.
From stdpp Require Import base option list strings gmap.

Set Default Proof Using "Type".

(** ** Objects used as dictionaries *)

(** The property names of [Object.prototype] (ECMAScript, with the accessors
    of its Annex B). Each of them is a function, but [__proto__], which
    gives [Object.prototype] itself: a lookup of any of these names on a
    plain object finds a truthy value that has none of the properties
    [inputSchema], [callback] and [readCallback]. *)
Definition Object_prototype : list string :=
  [ "constructor"; "hasOwnProperty"; "isPrototypeOf"; "propertyIsEnumerable";
    "toLocaleString"; "toString"; "valueOf"; "__proto__";
    "__defineGetter__"; "__defineSetter__"; "__lookupGetter__"; "__lookupSetter__" ].

Definition inherited (k : string) : bool := bool_decide (k ∈ Object_prototype).

(** A colon occurs in the string. *)
Fixpoint has_colon (s : string) : bool :=
  match s with
  | EmptyString => false
  | String a s' => if (N_of_ascii a =? 58)%N then true else has_colon s'
  end.

Section dict.
Context {V : Type}.

(** The own property of [obj] under the key [k], if there is one. *)
Fixpoint dict_get (k : string) (d : list (string * V)) : option V :=
  match d with
  | [] => None
  | (k', v) :: d' => if decide (k = k') then Some v else dict_get k d'
  end.

(** What [obj[k]] finds on an object created as [{}]. *)
Inductive Property :=
| Own (v : V)
| Inherited
| Undefined.

(** [obj[k]], the lookup along the prototype chain: the own property, or
    else the member of [Object.prototype] when the key is one of its names. *)
Definition Object_get (k : string) (d : list (string * V)) : Property :=
  match dict_get k d with
  | Some v => Own v
  | None => if inherited k then Inherited else Undefined
  end.

(** [obj[k] = v] for a key that names no member of [Object.prototype] (the
    class assigns only after a lookup of the key found nothing): an existing
    key keeps its place, a new one goes last. *)
Fixpoint dict_set (k : string) (v : V) (d : list (string * V)) : list (string * V) :=
  match d with
  | [] => [(k, v)]
  | (k', v') :: d' =>
      if decide (k = k') then (k, v) :: d' else (k', v') :: dict_set k v d'
  end.

Definition digit (a : ascii) : option N :=
  let n := N_of_ascii a in
  if ((48 <=? n) && (n <=? 57))%N then Some (n - 48)%N else None.

Fixpoint digits (s : string) (acc : N) : option N :=
  match s with
  | EmptyString => Some acc
  | String a s' =>
      match digit a with
      | Some n => digits s' (10 * acc + n)%N
      | None => None
      end
  end.

(** A key is an array index when it is the canonical decimal form of an
    integer below 2^32 - 1. *)
Definition array_index (k : string) : option N :=
  match k with
  | EmptyString => None
  | String "0"%char EmptyString => Some 0%N
  | String "0"%char _ => None
  | _ =>
      match digits k 0 with
      | Some n => if (n <? 2 ^ 32 - 1)%N then Some n else None
      | None => None
      end
  end.

Fixpoint insert_index (x : N * (string * V)) (l : list (N * (string * V)))
  : list (N * (string * V)) :=
  match l with
  | [] => [x]
  | y :: l' => if (x.1 <? y.1)%N then x :: y :: l' else y :: insert_index x l'
  end.

Fixpoint index_keys (d : list (string * V)) : list (N * (string * V)) :=
  match d with
  | [] => []
  | kv :: d' =>
      match array_index kv.1 with
      | Some n => insert_index (n, kv) (index_keys d')
      | None => index_keys d'
      end
  end.

Fixpoint name_keys (d : list (string * V)) : list (string * V) :=
  match d with
  | [] => []
  | kv :: d' =>
      match array_index kv.1 with
      | Some _ => name_keys d'
      | None => kv :: name_keys d'
      end
  end.

(** [Object.entries(obj)]: array indices in ascending order, then the
    other keys in the order they were created. *)
Definition Object_entries (d : list (string * V)) : list (string * V) :=
  (index_keys d).*2 ++ name_keys d.

(** [Object.values(obj)] *)
Definition Object_values (d : list (string * V)) : list V :=
  (Object_entries d).*2.
End dict.

(** ** Completions and the state-and-exception monad *)

(** [ErrorCode] of types.ts, the JSON-RPC codes. *)
Inductive ErrorCode :=
| ParseError | InvalidRequest | MethodNotFound | InvalidParams | InternalError.

(** The result of [safeParseAsync]. *)
Inductive SafeParseReturnType (D : Type) :=
| ParseSuccess (data : D)
| ParseFailure (message : string).
Arguments Own {V} v.
Arguments Inherited {V}.
Arguments Undefined {V}.
Arguments ParseSuccess {D} data.
Arguments ParseFailure {D} message.

(** What lies outside the class: the platform, zod, and the constants the
    class imports from types.ts. *)
Class Environment := {
  (** the state user callbacks act on *)
  World : Type;
  (** a JavaScript value the class only passes along *)
  JSValue : Type;
  (** a string as a value *)
  Str : string → JSValue;
  (** [String(v)] *)
  String_ : JSValue → string;
  (** the message of the TypeError the engine throws when what is called is
      no function, from the text of the callee ([cb is not a function]) *)
  TypeError_not_a_function : string → string;
  (** the call context the dispatch layer hands to a request handler *)
  RequestHandlerExtra : Type;
  (** [new URL(s)], [None] when the constructor throws its TypeError *)
  URL : Type;
  URL_new : string → option URL;
  URL_toString : URL → string;
  (** the string form of a URL starts with its scheme and a colon *)
  URL_toString_colon : ∀ s u, URL_new s = Some u → has_colon (URL_toString u) = true;
  (** zod *)
  ZodRawShape : Type;
  AnyZodObject : Type;
  z_object : ZodRawShape → AnyZodObject;
  safeParseAsync : AnyZodObject → option JSValue → SafeParseReturnType JSValue;
  zodToJsonSchema : AnyZodObject → JSValue;
  (** types.ts *)
  SUPPORTED_PROTOCOL_VERSIONS : list string;
  LATEST_PROTOCOL_VERSION : string;
}.

Section completion.
Context {env : Environment}.

(** What a callback throws: an instance of [Error] with its [message], or
    any other value. *)
Inductive Fault :=
| ErrorObject (message : string)
| ThrownValue (v : JSValue).

(** What the class itself throws, and what it lets through. *)
Inductive Thrown :=
| Error_ (message : string)
| McpError (code : ErrorCode) (message : string)
| InvalidURL (input : string)
| Propagated (f : Fault).

Inductive Completion (A : Type) :=
| Normal (a : A)
| Abrupt (t : Thrown).

(** What calling a callback gives: a value or a promise, settled. *)
Inductive Outcome (A : Type) :=
| Returns (a : A)
| Throws (f : Fault)
| Resolves (a : A)
| Rejects (f : Fault).
End completion.

Arguments Normal {_ A} a.
Arguments Abrupt {_ A} t.
Arguments Returns {_ A} a.
Arguments Throws {_ A} f.
Arguments Resolves {_ A} a.
Arguments Rejects {_ A} f.

Section monad.
Context {env : Environment} {S : Type}.

Definition M (A : Type) : Type := S → Completion A * S.

Definition ret {A} (a : A) : M A := λ s, (Normal a, s).
Definition throw {A} (t : Thrown) : M A := λ s, (Abrupt t, s).
Definition bind {A B} (m : M A) (k : A → M B) : M B :=
  λ s, match m s with
       | (Normal a, s') => k a s'
       | (Abrupt t, s') => (Abrupt t, s')
       end.
Definition get : M S := λ s, (Normal s, s).
Definition gets {A} (f : S → A) : M A := λ s, (Normal (f s), s).
Definition modify (f : S → S) : M unit := λ s, (Normal tt, f s).
End monad.

Arguments M {_} S A.

Global Instance M_ret `{Environment} {S} : MRet (M S) := λ A, ret.
Global Instance M_bind `{Environment} {S} : MBind (M S) := λ A B k m, bind m k.

(** ** The protocol layer under the class *)

(** The request handlers the class installs are closures over [this]: each
    is named here, and the function it stands for ([_oninitialize],
    [listTools], [callTool], [listResources], [listResourceTemplates],
    [readResource]) takes the state of the server at the time of the request.
    A handler the embedding application installs itself is
    [ApplicationHandler]. *)
Inductive RequestHandler :=
| InitializeHandler
| ListToolsHandler
| CallToolHandler
| ListResourcesHandler
| ListResourceTemplatesHandler
| ReadResourceHandler
| ApplicationHandler (id : nat).

(** Who installs a handler: the constructor, one of the two registries, or
    the embedding application. *)
Inductive Installer :=
| Handshake
| ToolRegistry
| ResourceRegistry
| Application.

Global Instance Installer_eq_dec : EqDecision Installer.
Proof. solve_decision. Defined.

Definition installer_of (h : RequestHandler) : Installer :=
  match h with
  | InitializeHandler => Handshake
  | ListToolsHandler | CallToolHandler => ToolRegistry
  | ListResourcesHandler | ListResourceTemplatesHandler | ReadResourceHandler =>
      ResourceRegistry
  | ApplicationHandler _ => Application
  end.

Section server.
Context {env : Environment}.

(** [ServerCapabilities], [ClientCapabilities]: a feature is declared when
    its key is present; the value holds the feature's options. *)
Definition Capabilities : Type := gmap string (gmap string JSValue).

Definition declares (c : gmap string (gmap string JSValue)) (feature : string) : bool :=
  match c !! feature with
  | Some _ => true
  | None => false
  end.

(** Modelled from the spec: [mergeCapabilities] of shared/protocol.ts, which
    is not among the sources. "Merging two sets is a union that must not
    silently drop a previously-declared feature", "the union per field":
    a feature of either side is kept, and the options of a feature both
    sides declare are united, the added ones taking precedence. *)
Definition mergeCapabilities (base additional : gmap string (gmap string JSValue))
  : gmap string (gmap string JSValue) :=
  union_with (λ b a, Some (a ∪ b)) base additional.

Record Implementation := { impl_name : string; impl_version : string }.

(** A message placed on the wire. *)
Inductive Message :=
| RequestMessage (method : string) (params : option JSValue)
| NotificationMessage (method : string) (params : option JSValue).

(** ** Registry entries *)

Inductive Content :=
| TextContent (text : string)
| OtherContent (v : JSValue).

Record CallToolResult := {
  content : list Content;
  isError : option bool;
}.

(** [ToolCallback]: called as [cb(args, extra)] when the tool has an input
    schema and as [cb(extra)] when it has none. *)
Definition ToolCallback : Type :=
  option JSValue → RequestHandlerExtra → World → Outcome CallToolResult * World.

Record RegisteredTool := {
  description : option string;
  inputSchema : option AnyZodObject;
  callback : ToolCallback;
}.

(** [Resource]: an object with the fields [uri] and [name] and any others. *)
Definition Resource : Type := gmap string JSValue.

(** [ResourceMetadata = Omit<Resource, "uri" | "name">] *)
Definition ResourceMetadata : Type := gmap string JSValue.

Definition Variables : Type := list (string * JSValue).

Record ReadResourceResult := { contents : list JSValue }.
Record ListResourcesResult := { resources : list Resource }.

Definition ReadResourceCallback : Type :=
  URL → option Variables → World → Outcome ReadResourceResult * World.
Definition ListResourcesCallback : Type :=
  World → Outcome ListResourcesResult * World.

Record RegisteredResource := {
  res_name : string;
  res_metadata : option ResourceMetadata;
  res_readCallback : ReadResourceCallback;
}.

(** [UriTemplate] of shared/uriTemplate.ts, through the two methods the
    class calls. *)
Record UriTemplate := {
  uriTemplate_toString : string;
  uriTemplate_match : string → option Variables;
}.

Record RegisteredResourceTemplate := {
  tpl_uriTemplate : UriTemplate;
  tpl_metadata : option ResourceMetadata;
  tpl_listCallback : option ListResourcesCallback;
  tpl_readCallback : ReadResourceCallback;
}.

(** ** The state of a server *)

Record Server := {
  (** of [Protocol]: the attached transport with what was sent on it, and
      the installed request handlers *)
  transport : option (list Message);
  _requestHandlers : gmap string RequestHandler;
  (** of [Server] *)
  _clientCapabilities : option Capabilities;
  _clientVersion : option Implementation;
  _capabilities : Capabilities;
  _serverInfo : Implementation;
  _registeredTools : list (string * RegisteredTool);
  _registeredResources : list (string * RegisteredResource);
  _registeredResourceTemplates : list (string * RegisteredResourceTemplate);
}.

Definition set_transport (t : option (list Message)) (s : Server) : Server :=
  {| transport := t;
     _requestHandlers := _requestHandlers s;
     _clientCapabilities := _clientCapabilities s;
     _clientVersion := _clientVersion s;
     _capabilities := _capabilities s;
     _serverInfo := _serverInfo s;
     _registeredTools := _registeredTools s;
     _registeredResources := _registeredResources s;
     _registeredResourceTemplates := _registeredResourceTemplates s |}.

Definition set_requestHandlers (h : gmap string RequestHandler) (s : Server) : Server :=
  {| transport := transport s;
     _requestHandlers := h;
     _clientCapabilities := _clientCapabilities s;
     _clientVersion := _clientVersion s;
     _capabilities := _capabilities s;
     _serverInfo := _serverInfo s;
     _registeredTools := _registeredTools s;
     _registeredResources := _registeredResources s;
     _registeredResourceTemplates := _registeredResourceTemplates s |}.

Definition set_client (c : Capabilities) (v : Implementation) (s : Server) : Server :=
  {| transport := transport s;
     _requestHandlers := _requestHandlers s;
     _clientCapabilities := Some c;
     _clientVersion := Some v;
     _capabilities := _capabilities s;
     _serverInfo := _serverInfo s;
     _registeredTools := _registeredTools s;
     _registeredResources := _registeredResources s;
     _registeredResourceTemplates := _registeredResourceTemplates s |}.

Definition set_capabilities (c : Capabilities) (s : Server) : Server :=
  {| transport := transport s;
     _requestHandlers := _requestHandlers s;
     _clientCapabilities := _clientCapabilities s;
     _clientVersion := _clientVersion s;
     _capabilities := c;
     _serverInfo := _serverInfo s;
     _registeredTools := _registeredTools s;
     _registeredResources := _registeredResources s;
     _registeredResourceTemplates := _registeredResourceTemplates s |}.

Definition set_registeredTools (d : list (string * RegisteredTool)) (s : Server) : Server :=
  {| transport := transport s;
     _requestHandlers := _requestHandlers s;
     _clientCapabilities := _clientCapabilities s;
     _clientVersion := _clientVersion s;
     _capabilities := _capabilities s;
     _serverInfo := _serverInfo s;
     _registeredTools := d;
     _registeredResources := _registeredResources s;
     _registeredResourceTemplates := _registeredResourceTemplates s |}.

Definition set_registeredResources (d : list (string * RegisteredResource))
    (s : Server) : Server :=
  {| transport := transport s;
     _requestHandlers := _requestHandlers s;
     _clientCapabilities := _clientCapabilities s;
     _clientVersion := _clientVersion s;
     _capabilities := _capabilities s;
     _serverInfo := _serverInfo s;
     _registeredTools := _registeredTools s;
     _registeredResources := d;
     _registeredResourceTemplates := _registeredResourceTemplates s |}.

Definition set_registeredResourceTemplates
    (d : list (string * RegisteredResourceTemplate)) (s : Server) : Server :=
  {| transport := transport s;
     _requestHandlers := _requestHandlers s;
     _clientCapabilities := _clientCapabilities s;
     _clientVersion := _clientVersion s;
     _capabilities := _capabilities s;
     _serverInfo := _serverInfo s;
     _registeredTools := _registeredTools s;
     _registeredResources := _registeredResources s;
     _registeredResourceTemplates := d |}.

(** ** Capabilities and their guards *)

(** [registerCapabilities] *)
Definition registerCapabilities (capabilities : Capabilities) : M Server unit :=
  t ← gets transport;
  match t with
  | Some _ =>
      throw (Error_ "Cannot register capabilities after connecting to transport")
  | None =>
      modify (λ s, set_capabilities (mergeCapabilities (_capabilities s) capabilities) s)
  end.

Definition method_is (method case : string) : bool := bool_decide (method = case).

(** [assertCapabilityForMethod] *)
Definition assertCapabilityForMethod (method : string) : M Server unit :=
  c ← gets _clientCapabilities;
  let client feature :=
    match c with
    | Some c => declares c feature
    | None => false
    end in
  if method_is method "sampling/createMessage" then
    if negb (client "sampling") then
      throw (Error_ ("Client does not support sampling (required for "
                     +:+ method +:+ ")"))
    else ret tt
  else if method_is method "roots/list" then
    if negb (client "roots") then
      throw (Error_ ("Client does not support listing roots (required for "
                     +:+ method +:+ ")"))
    else ret tt
  else ret tt.

(** [assertNotificationCapability] *)
Definition assertNotificationCapability (method : string) : M Server unit :=
  c ← gets _capabilities;
  if method_is method "notifications/message" then
    if negb (declares c "logging") then
      throw (Error_ ("Server does not support logging (required for "
                     +:+ method +:+ ")"))
    else ret tt
  else if method_is method "notifications/resources/updated"
          || method_is method "notifications/resources/list_changed" then
    if negb (declares c "resources") then
      throw (Error_ ("Server does not support notifying about resources (required for "
                     +:+ method +:+ ")"))
    else ret tt
  else if method_is method "notifications/tools/list_changed" then
    if negb (declares c "tools") then
      throw (Error_ ("Server does not support notifying of tool list changes (required for "
                     +:+ method +:+ ")"))
    else ret tt
  else if method_is method "notifications/prompts/list_changed" then
    if negb (declares c "prompts") then
      throw (Error_ ("Server does not support notifying of prompt list changes (required for "
                     +:+ method +:+ ")"))
    else ret tt
  else ret tt.

(** [assertRequestHandlerCapability] *)
Definition assertRequestHandlerCapability (method : string) : M Server unit :=
  c ← gets _capabilities;
  if method_is method "sampling/createMessage" then
    if negb (declares c "sampling") then
      throw (Error_ ("Server does not support sampling (required for "
                     +:+ method +:+ ")"))
    else ret tt
  else if method_is method "logging/setLevel" then
    if negb (declares c "logging") then
      throw (Error_ ("Server does not support logging (required for "
                     +:+ method +:+ ")"))
    else ret tt
  else if method_is method "prompts/get" || method_is method "prompts/list" then
    if negb (declares c "prompts") then
      throw (Error_ ("Server does not support prompts (required for "
                     +:+ method +:+ ")"))
    else ret tt
  else if method_is method "resources/list" || method_is method "resources/templates/list"
          || method_is method "resources/read" then
    if negb (declares c "resources") then
      throw (Error_ ("Server does not support resources (required for "
                     +:+ method +:+ ")"))
    else ret tt
  else if method_is method "tools/call" || method_is method "tools/list" then
    if negb (declares c "tools") then
      throw (Error_ ("Server does not support tools (required for "
                     +:+ method +:+ ")"))
    else ret tt
  else ret tt.

(** Modelled from the spec: the send primitive under [Protocol.request] and
    [Protocol.notification] of shared/protocol.ts, which is not among the
    sources. Each outbound helper "simply forwards to the underlying
    request/notification primitive with the appropriate method name and the
    capability guard of §4.1 applied first"; the primitive places the message
    on the attached transport, and with none attached there is nothing to
    send on. The reply to a request is the dispatch layer's business and is
    left out. *)
Definition send (m : Message) : M Server unit :=
  t ← gets transport;
  match t with
  | Some wire => modify (set_transport (Some (wire ++ [m])))
  | None => throw (Error_ "Not connected")
  end.

(** Modelled from the spec: [Protocol.request], the guard
    [assertCapabilityForMethod] first, then the send. *)
Definition request (method : string) (params : option JSValue) : M Server unit :=
  assertCapabilityForMethod method;;
  send (RequestMessage method params).

(** Modelled from the spec: [Protocol.notification], the guard
    [assertNotificationCapability] first, then the send. *)
Definition notification (method : string) (params : option JSValue) : M Server unit :=
  assertNotificationCapability method;;
  send (NotificationMessage method params).

(** Modelled from the spec: [Protocol.connect], attaching a transport. *)
Definition connect : M Server unit := modify (set_transport (Some [])).

(** Modelled from the spec: [Protocol.setRequestHandler]. "Inbound request
    handler installation" is subject to the guard
    [assertRequestHandlerCapability]; the handler then replaces whatever
    was installed for the method. *)
Definition setRequestHandler (method : string) (handler : RequestHandler)
  : M Server unit :=
  assertRequestHandlerCapability method;;
  modify (λ s, set_requestHandlers (<[method := handler]> (_requestHandlers s)) s).

(** The constructor: no transport, the capabilities of the options, and the
    handshake handler installed. (The handler of the [initialized]
    notification only calls [oninitialized]; notification handlers are left
    out of the state.) *)
Definition new_Server (serverInfo : Implementation) (capabilities : option Capabilities)
  : Server :=
  {| transport := None;
     _requestHandlers := {[ "initialize" := InitializeHandler ]};
     _clientCapabilities := None;
     _clientVersion := None;
     _capabilities := default ∅ capabilities;
     _serverInfo := serverInfo;
     _registeredTools := [];
     _registeredResources := [];
     _registeredResourceTemplates := [] |}.

(** ** The handshake *)

Record InitializeRequest := {
  protocolVersion : string;
  capabilities : Capabilities;
  clientInfo : Implementation;
}.

Record InitializeResult := {
  result_protocolVersion : string;
  result_capabilities : Capabilities;
  result_serverInfo : Implementation;
}.

(** [Array.prototype.includes] on strings *)
Fixpoint includes (l : list string) (x : string) : bool :=
  match l with
  | [] => false
  | y :: l' => if decide (y = x) then true else includes l' x
  end.

Definition getCapabilities : M Server Capabilities := gets _capabilities.

(** [_oninitialize] *)
Definition _oninitialize (request : InitializeRequest) : M Server InitializeResult :=
  let requestedVersion := protocolVersion request in
  modify (set_client (capabilities request) (clientInfo request));;
  c ← getCapabilities;
  info ← gets _serverInfo;
  ret {| result_protocolVersion :=
           if includes SUPPORTED_PROTOCOL_VERSIONS requestedVersion
           then requestedVersion
           else LATEST_PROTOCOL_VERSION;
         result_capabilities := c;
         result_serverInfo := info |}.

(** ** The outbound helpers *)

Definition ping : M Server unit := request "ping" None.
Definition createMessage (params : JSValue) : M Server unit :=
  request "sampling/createMessage" (Some params).
Definition listRoots (params : option JSValue) : M Server unit :=
  request "roots/list" params.
Definition sendLoggingMessage (params : JSValue) : M Server unit :=
  notification "notifications/message" (Some params).
Definition sendResourceUpdated (params : JSValue) : M Server unit :=
  notification "notifications/resources/updated" (Some params).
Definition sendResourceListChanged : M Server unit :=
  notification "notifications/resources/list_changed" None.
Definition sendToolListChanged : M Server unit :=
  notification "notifications/tools/list_changed" None.
Definition sendPromptListChanged : M Server unit :=
  notification "notifications/prompts/list_changed" None.

(** ** Running callbacks *)

Inductive Invocation :=
| ToolCall (name : string) (args : option JSValue) (extra : RequestHandlerExtra)
| ResourceRead (u : URL) (variables : option Variables)
| ResourceList.

(** What a request handler acts on: the callbacks' world, and the callback
    invocations so far. *)
Record HState := { world : World; trace : list Invocation }.

(** [cb(...)]: the invocation is recorded and the callback run. *)
Definition call {A} (i : Invocation) (cb : World → Outcome A * World)
  : M HState (Outcome A) :=
  λ h, let '(o, w) := cb (world h) in
       (Normal o, {| world := w; trace := trace h ++ [i] |}).

(** [return o] or [await o] in an async function with no handler around:
    a fault of the callback leaves the function as it is. *)
Definition settle {A} (o : Outcome A) : M HState A :=
  match o with
  | Returns a | Resolves a => mret a
  | Throws f | Rejects f => throw (Propagated f)
  end.

(** [try { return await Promise.resolve(o) } catch (error) { return h error }] *)
Definition try_await {A} (o : Outcome A) (h : Fault → A) : M HState A :=
  match o with
  | Returns a | Resolves a => mret a
  | Throws error | Rejects error => mret (h error)
  end.

(** ** The tool handlers *)

Inductive ToolInputSchema :=
| EMPTY_OBJECT_JSON_SCHEMA
| JsonSchema (schema : JSValue).

Record Tool := {
  tool_name : string;
  tool_description : option string;
  tool_inputSchema : ToolInputSchema;
}.

(** the handler of tools/list *)
Definition listTools (s : Server) : M HState (list Tool) :=
  mret (map (λ '(name, tool),
              {| tool_name := name;
                 tool_description := description tool;
                 tool_inputSchema :=
                   match inputSchema tool with
                   | Some schema => JsonSchema (zodToJsonSchema schema)
                   | None => EMPTY_OBJECT_JSON_SCHEMA
                   end |})
            (Object_entries (_registeredTools s))).

(** [error instanceof Error ? error.message : String(error)] *)
Definition error_text (error : Fault) : string :=
  match error with
  | ErrorObject message => message
  | ThrownValue v => String_ v
  end.

Definition error_result (error : Fault) : CallToolResult :=
  {| content := [TextContent (error_text error)]; isError := Some true |}.

(** the handler of tools/call *)
Definition callTool (s : Server) (name : string) (arguments : option JSValue)
    (extra : RequestHandlerExtra) : M HState CallToolResult :=
  match Object_get name (_registeredTools s) with
  | Undefined => throw (McpError InvalidParams ("Tool " +:+ name +:+ " not found"))
  | Inherited =>
      (* [tool] is a member of [Object.prototype]: [tool.inputSchema] and
         [tool.callback] are undefined, and [cb(extra)] throws in the [try] *)
      try_await (Throws (ErrorObject (TypeError_not_a_function "cb"))) error_result
  | Own tool =>
      match inputSchema tool with
      | Some schema =>
          match safeParseAsync schema arguments with
          | ParseFailure message =>
              throw (McpError InvalidParams
                       ("Invalid arguments for tool " +:+ name +:+ ": " +:+ message))
          | ParseSuccess args =>
              o ← call (ToolCall name (Some args) extra) (callback tool (Some args) extra);
              try_await o error_result
          end
      | None =>
          o ← call (ToolCall name None extra) (callback tool None extra);
          try_await o error_result
      end
  end.

(** ** The resource handlers *)

(** [{ ...object, ...metadata }]: a field of the metadata replaces the
    object's field of the same name; spreading [undefined] adds nothing. *)
Definition spread (object : gmap string JSValue) (metadata : option ResourceMetadata)
  : gmap string JSValue :=
  match metadata with
  | Some m => m ∪ object
  | None => object
  end.

(** [templateResources.push({...resource, ...template.metadata})] for each
    resource of a list callback's result *)
Fixpoint push_resources (template : RegisteredResourceTemplate)
    (rs : list Resource) (templateResources : list Resource) : list Resource :=
  match rs with
  | [] => templateResources
  | resource :: rs' =>
      push_resources template rs'
        (templateResources ++ [spread resource (tpl_metadata template)])
  end.

(** the loop over the templates in the handler of resources/list *)
Fixpoint list_templates (templates : list RegisteredResourceTemplate)
    (templateResources : list Resource) : M HState (list Resource) :=
  match templates with
  | [] => mret templateResources
  | template :: templates' =>
      match tpl_listCallback template with
      | None => list_templates templates' templateResources
      | Some listCallback =>
          o ← call ResourceList listCallback;
          result ← settle o;
          list_templates templates'
            (push_resources template (resources result) templateResources)
      end
  end.

(** the handler of resources/list *)
Definition listResources (s : Server) : M HState ListResourcesResult :=
  let resources :=
    map (λ '(uri, resource),
          spread (<["name" := Str (res_name resource)]> (<["uri" := Str uri]> ∅))
            (res_metadata resource))
        (Object_entries (_registeredResources s)) in
  templateResources ←
    list_templates (Object_values (_registeredResourceTemplates s)) [];
  mret {| resources := resources ++ templateResources |}.

(** [ResourceTemplate]: an object with the fields [name] and [uriTemplate]
    and any others. *)
Definition ResourceTemplate : Type := gmap string JSValue.

(** the handler of resources/templates/list *)
Definition listResourceTemplates (s : Server) : M HState (list ResourceTemplate) :=
  mret (map (λ '(name, template),
              spread (<["uriTemplate" :=
                          Str (uriTemplate_toString (tpl_uriTemplate template))]>
                        (<["name" := Str name]> ∅))
                (tpl_metadata template))
            (Object_entries (_registeredResourceTemplates s))).

(** the loop over the templates in the handler of resources/read, with the
    [throw] that follows it *)
Fixpoint read_templates (templates : list RegisteredResourceTemplate) (u : URL)
  : M HState ReadResourceResult :=
  match templates with
  | [] =>
      throw (McpError InvalidParams ("Resource " +:+ URL_toString u +:+ " not found"))
  | template :: templates' =>
      match uriTemplate_match (tpl_uriTemplate template) (URL_toString u) with
      | Some variables =>
          o ← call (ResourceRead u (Some variables))
                   (tpl_readCallback template u (Some variables));
          settle o
      | None => read_templates templates' u
      end
  end.

(** the handler of resources/read. The key of the lookup is the string form
    of a URL; it holds a colon ([URL_toString_colon]), so that no member of
    [Object.prototype] answers to it and the lookup finds the own property
    or nothing. *)
Definition readResource (s : Server) (requested : string)
  : M HState ReadResourceResult :=
  match URL_new requested with
  | None => throw (InvalidURL requested)
  | Some u =>
      match dict_get (URL_toString u) (_registeredResources s) with
      | Some resource =>
          o ← call (ResourceRead u None) (res_readCallback resource u None);
          settle o
      | None => read_templates (Object_values (_registeredResourceTemplates s)) u
      end
  end.

(** ** Registration *)

Section registration.
(** [Protocol.assertCanSetRequestHandler] of shared/protocol.ts is not
    among the sources. It is a check of the installed handlers; here it is
    told, besides the method, which component asks. *)
Variable guard : Installer → gmap string RequestHandler → string → option string.

Definition assertCanSetRequestHandler (who : Installer) (method : string)
  : M Server unit :=
  handlers ← gets _requestHandlers;
  match guard who handlers method with
  | Some message => throw (Error_ message)
  | None => mret tt
  end.

(** [setToolRequestHandlers] *)
Definition setToolRequestHandlers : M Server unit :=
  assertCanSetRequestHandler ToolRegistry "tools/list";;
  assertCanSetRequestHandler ToolRegistry "tools/call";;
  registerCapabilities {[ "tools" := ∅ ]};;
  setRequestHandler "tools/list" ListToolsHandler;;
  setRequestHandler "tools/call" CallToolHandler.

(** [tool], by its overloads: the description and the parameter schema
    are the optional leading arguments, the callback is the last one. *)
Definition tool (name : string) (description : option string)
    (paramsSchema : option ZodRawShape) (cb : ToolCallback) : M Server unit :=
  tools ← gets _registeredTools;
  match Object_get name tools with
  | Own _ | Inherited => throw (Error_ ("Tool " +:+ name +:+ " is already registered"))
  | Undefined =>
      modify (λ s, set_registeredTools
                     (dict_set name
                        {| description := description;
                           inputSchema := z_object <$> paramsSchema;
                           callback := cb |}
                        (_registeredTools s)) s);;
      setToolRequestHandlers
  end.

(** [setResourceRequestHandlers] *)
Definition setResourceRequestHandlers : M Server unit :=
  assertCanSetRequestHandler ResourceRegistry "resources/list";;
  assertCanSetRequestHandler ResourceRegistry "resources/templates/list";;
  assertCanSetRequestHandler ResourceRegistry "resources/read";;
  registerCapabilities {[ "resources" := ∅ ]};;
  setRequestHandler "resources/list" ListResourcesHandler;;
  setRequestHandler "resources/templates/list" ListResourceTemplatesHandler;;
  setRequestHandler "resources/read" ReadResourceHandler.

(** [registerResource] *)
Definition registerResource (name uri : string) (metadata : option ResourceMetadata)
    (readCallback : ReadResourceCallback) : M Server unit :=
  registered ← gets _registeredResources;
  match Object_get uri registered with
  | Own _ | Inherited =>
      throw (Error_ ("Resource " +:+ uri +:+ " is already registered"))
  | Undefined =>
      modify (λ s, set_registeredResources
                     (dict_set uri
                        {| res_name := name;
                           res_metadata := metadata;
                           res_readCallback := readCallback |}
                        (_registeredResources s)) s);;
      setResourceRequestHandlers
  end.

(** [registerResourceTemplate] *)
Definition registerResourceTemplate (name : string) (uriTemplate : UriTemplate)
    (metadata : option ResourceMetadata)
    (listCallback : option ListResourcesCallback)
    (readCallback : ReadResourceCallback) : M Server unit :=
  registered ← gets _registeredResourceTemplates;
  match Object_get name registered with
  | Own _ | Inherited =>
      throw (Error_ ("Resource template " +:+ name +:+ " is already registered"))
  | Undefined =>
      modify (λ s, set_registeredResourceTemplates
                     (dict_set name
                        {| tpl_uriTemplate := uriTemplate;
                           tpl_metadata := metadata;
                           tpl_listCallback := listCallback;
                           tpl_readCallback := readCallback |}
                        (_registeredResourceTemplates s)) s);;
      setResourceRequestHandlers
  end.

(** [resource], by its overloads: a string address registers a fixed
    resource, a [UriTemplate] a template; the metadata and the list
    callback are the optional arguments before the read callback. *)
Definition resource (name : string) (uriOrTemplate : string + UriTemplate)
    (metadata : option ResourceMetadata)
    (listCallback : option ListResourcesCallback)
    (readCallback : ReadResourceCallback) : M Server unit :=
  match uriOrTemplate with
  | inl uri => registerResource name uri metadata readCallback
  | inr uriTemplate =>
      registerResourceTemplate name uriTemplate metadata listCallback readCallback
  end.
End registration.
End server.

(** Modelled from the spec: the guard [assertCanSetRequestHandler] of
    shared/protocol.ts, which is not among the sources: "a guard to refuse
    registering a request handler for a method already owned by a different
    installer". A method nobody owns, or one the asking component installed
    itself, passes. *)
Definition owner_guard (who : Installer) (handlers : gmap string RequestHandler)
    (method : string) : option string :=
  match handlers !! method with
  | Some h =>
      if decide (installer_of h = who) then None
      else Some ("A request handler for " +:+ method
                 +:+ " already exists, which would be overridden")
  | None => None
  end.


(** ** An environment for the examples *)

Inductive SampleValue :=
| SString (s : string)
| SObject (fields : list (string * string)).

Definition is_alpha (a : ascii) : bool :=
  let n := N_of_ascii a in
  (((65 <=? n) && (n <=? 90)) || ((97 <=? n) && (n <=? 122)))%N.

Definition is_scheme_char (a : ascii) : bool :=
  let n := N_of_ascii a in
  (is_alpha a || ((48 <=? n) && (n <=? 57)) || (n =? 43) || (n =? 45) || (n =? 46))%N.

Fixpoint scheme_rest (s : string) : bool :=
  match s with
  | EmptyString => false
  | String a s' =>
      if (N_of_ascii a =? 58)%N then true
      else if is_scheme_char a then scheme_rest s' else false
  end.

(** The URL constructor refuses an input that does not start with a scheme
    (a letter, then letters, digits, [+], [-] or [.], up to a colon); the
    examples use addresses that are written in their normal form. *)
Definition sample_URL_new (s : string) : option string :=
  match s with
  | EmptyString => None
  | String a s' => if is_alpha a && scheme_rest s' then Some s else None
  end.

(** A raw shape lists the required fields; parsing keeps exactly those. *)
Fixpoint sample_fields (shape : list string) (fields : list (string * string))
  : option (list (string * string)) :=
  match shape with
  | [] => Some []
  | k :: shape' =>
      match dict_get k fields, sample_fields shape' fields with
      | Some v, Some rest => Some ((k, v) :: rest)
      | _, _ => None
      end
  end.

Definition sample_safeParse (shape : list string) (arguments : option SampleValue)
  : SafeParseReturnType SampleValue :=
  match arguments with
  | Some (SObject fields) =>
      match sample_fields shape fields with
      | Some data => ParseSuccess (SObject data)
      | None => ParseFailure "Required"
      end
  | _ => ParseFailure "Expected object"
  end.

Lemma scheme_rest_colon s : scheme_rest s = true → has_colon s = true.
Proof.
  induction s as [|a s IH]; simpl; [done|].
  destruct (N_of_ascii a =? 58)%N; [done|].
  by destruct (is_scheme_char a).
Qed.

Lemma sample_URL_colon s u : sample_URL_new s = Some u → has_colon u = true.
Proof.
  destruct s as [|a s']; [done|]. unfold sample_URL_new.
  destruct (is_alpha a && scheme_rest s') eqn:Hs; [|done].
  intros [= <-]. apply andb_true_iff in Hs as [_ Hs]. simpl.
  destruct (N_of_ascii a =? 58)%N; [done|]. by apply scheme_rest_colon.
Qed.

Definition sample : Environment :=
  {| World := list string;
     JSValue := SampleValue;
     Str := SString;
     String_ := λ v, match v with
                     | SString s => s
                     | SObject _ => "[object Object]"
                     end;
     TypeError_not_a_function := λ callee, callee +:+ " is not a function";
     RequestHandlerExtra := unit;
     URL := string;
     URL_new := sample_URL_new;
     URL_toString := λ u, u;
     URL_toString_colon := sample_URL_colon;
     ZodRawShape := list string;
     AnyZodObject := list string;
     z_object := λ shape, shape;
     safeParseAsync := sample_safeParse;
     zodToJsonSchema := λ shape, SObject (map (λ k, (k, "string")) shape);
     SUPPORTED_PROTOCOL_VERSIONS := ["2024-11-05"; "2024-10-07"];
     LATEST_PROTOCOL_VERSION := "2024-11-05" |}.

Definition text_result {env : Environment} (text : string) : CallToolResult :=
  {| content := [TextContent text]; isError := None |}.

(** [server.tool("echo", { text: z.string() }, async ({ text }) => ...)] *)
Definition echo : @ToolCallback sample :=
  λ args _ w,
    match args with
    | Some (SObject fields) =>
        match dict_get "text" fields with
        | Some text => (Resolves (text_result (env := sample) text), w ++ ["echo"])
        | None => (Throws (ErrorObject "no text"), w)
        end
    | _ => (Throws (ErrorObject "no arguments"), w)
    end.

(** a tool whose callback throws *)
Definition failing : @ToolCallback sample :=
  λ _ _ w, (Throws (ErrorObject "boom"), w ++ ["failing"]).

Definition sample_info : Implementation := {| impl_name := "sample"; impl_version := "1.0.0" |}.

Definition sample_server : @Server sample :=
  (tool (env := sample) owner_guard "failing" None None failing
     (tool (env := sample) owner_guard "echo" (Some "Echoes") (Some ["text"]) echo
        (new_Server sample_info None)).2).2.

Definition start : @HState sample := @Build_HState sample [] [].

(** ** Vocabulary of the statements *)

Section vocabulary.
Context {env : Environment}.

(** [Promise] settlement as a completion: a fault of the callback is what the
    caller sees thrown. *)
Definition completed {A} (o : Outcome A) : Completion A :=
  match o with
  | Returns a | Resolves a => Normal a
  | Throws f | Rejects f => Abrupt (Propagated f)
  end.

(** The callback threw, or returned a promise that rejected, with [f]. *)
Definition faulted {A} (o : Outcome A) (f : Fault) : Prop :=
  o = Throws f ∨ o = Rejects f.

(** The state of a handler after one more callback invocation. *)
Definition invoked (h : HState) (i : Invocation) (w : World) : HState :=
  {| world := w; trace := trace h ++ [i] |}.

(** A call of one of the registration entry points. *)
Inductive Registration :=
| RegisterTool (name : string) (description : option string)
    (paramsSchema : option ZodRawShape) (cb : ToolCallback)
| RegisterResource (name uri : string) (metadata : option ResourceMetadata)
    (readCallback : ReadResourceCallback)
| RegisterTemplate (name : string) (uriTemplate : UriTemplate)
    (metadata : option ResourceMetadata) (listCallback : option ListResourcesCallback)
    (readCallback : ReadResourceCallback).

Definition register (guard : Installer → gmap string RequestHandler → string → option string)
    (r : Registration) : M Server unit :=
  match r with
  | RegisterTool name description paramsSchema cb =>
      tool guard name description paramsSchema cb
  | RegisterResource name uri metadata readCallback =>
      resource guard name (inl uri) metadata None readCallback
  | RegisterTemplate name uriTemplate metadata listCallback readCallback =>
      resource guard name (inr uriTemplate) metadata listCallback readCallback
  end.

Fixpoint register_all (guard : Installer → gmap string RequestHandler → string → option string)
    (rs : list Registration) : M Server unit :=
  match rs with
  | [] => mret tt
  | r :: rs' => register guard r;; register_all guard rs'
  end.

(** The kind of a registration is the registry component that serves it. *)
Definition kind (r : Registration) : Installer :=
  match r with
  | RegisterTool _ _ _ _ => ToolRegistry
  | RegisterResource _ _ _ _ | RegisterTemplate _ _ _ _ _ => ResourceRegistry
  end.

(** The key a registration is stored under: a tool's name, a fixed
    resource's address, a template's name. *)
Inductive RegistryKey :=
| ToolName (name : string)
| ResourceUri (uri : string)
| TemplateName (name : string).

Definition key (r : Registration) : RegistryKey :=
  match r with
  | RegisterTool name _ _ _ => ToolName name
  | RegisterResource _ uri _ _ => ResourceUri uri
  | RegisterTemplate name _ _ _ _ => TemplateName name
  end.

(** The string a key is. *)
Definition key_name (k : RegistryKey) : string :=
  match k with
  | ToolName name | ResourceUri name | TemplateName name => name
  end.

(** The registry has an entry of its own under the key. *)
Definition registered (k : RegistryKey) (s : Server) : Prop :=
  match k with
  | ToolName name => is_Some (dict_get name (_registeredTools s))
  | ResourceUri uri => is_Some (dict_get uri (_registeredResources s))
  | TemplateName name => is_Some (dict_get name (_registeredResourceTemplates s))
  end.

(** The registry holds, under the registration's key, the entry made of its
    arguments. *)
Definition stored (r : Registration) (s : Server) : Prop :=
  match r with
  | RegisterTool name description paramsSchema cb =>
      dict_get name (_registeredTools s)
      = Some {| description := description;
                inputSchema := z_object <$> paramsSchema;
                callback := cb |}
  | RegisterResource name uri metadata readCallback =>
      dict_get uri (_registeredResources s)
      = Some {| res_name := name;
                res_metadata := metadata;
                res_readCallback := readCallback |}
  | RegisterTemplate name uriTemplate metadata listCallback readCallback =>
      dict_get name (_registeredResourceTemplates s)
      = Some {| tpl_uriTemplate := uriTemplate;
                tpl_metadata := metadata;
                tpl_listCallback := listCallback;
                tpl_readCallback := readCallback |}
  end.

Definition already_registered (k : RegistryKey) : string :=
  match k with
  | ToolName name => "Tool " +:+ name +:+ " is already registered"
  | ResourceUri uri => "Resource " +:+ uri +:+ " is already registered"
  | TemplateName name => "Resource template " +:+ name +:+ " is already registered"
  end.

(** The request methods a registry component installs handlers for. *)
Definition methods (who : Installer) : list string :=
  match who with
  | ToolRegistry => ["tools/list"; "tools/call"]
  | ResourceRegistry => ["resources/list"; "resources/templates/list"; "resources/read"]
  | _ => []
  end.

(** The arguments the tool callback is called with once the supplied
    arguments went through the tool's input schema, if it has one. *)
Inductive validates (tool : RegisteredTool) (arguments : option JSValue)
  : option JSValue → Prop :=
| validates_no_schema :
    inputSchema tool = None → validates tool arguments None
| validates_schema schema args :
    inputSchema tool = Some schema →
    safeParseAsync schema arguments = ParseSuccess args →
    validates tool arguments (Some args).

Definition matches (address : string) (template : RegisteredResourceTemplate)
  : option Variables :=
  uriTemplate_match (tpl_uriTemplate template) address.

(** What a resources/read request for the parsed address [u] resolves to:
    the read callback of the fixed resource stored under the address's
    string form, or else that of the first template, in the order
    [Object.values] gives them, whose matcher yields variables. *)
Inductive resolves_to (s : Server) (u : URL)
  : ReadResourceCallback → option Variables → Prop :=
| resolves_fixed resource :
    dict_get (URL_toString u) (_registeredResources s) = Some resource →
    resolves_to s u (res_readCallback resource) None
| resolves_template before template after variables :
    dict_get (URL_toString u) (_registeredResources s) = None →
    Object_values (_registeredResourceTemplates s) = before ++ template :: after →
    Forall (λ t, matches (URL_toString u) t = None) before →
    matches (URL_toString u) template = Some variables →
    resolves_to s u (tpl_readCallback template) (Some variables).

(** No fixed resource and no template answers for the address. *)
Definition unmatched (s : Server) (u : URL) : Prop :=
  dict_get (URL_toString u) (_registeredResources s) = None
  ∧ Forall (λ t, matches (URL_toString u) t = None)
      (Object_values (_registeredResourceTemplates s)).

(** A fixed resource as resources/list shows it: the address, the name,
    and the metadata spread over them. *)
Definition fixed_entry (kv : string * RegisteredResource) : Resource :=
  spread {[ "uri" := Str kv.1; "name" := Str (res_name kv.2) ]} (res_metadata kv.2).

(** An enumerated resource with the template's metadata spread over it. *)
Definition with_metadata (template : RegisteredResourceTemplate) (r : Resource)
  : Resource :=
  spread r (tpl_metadata template).

(** Running, in order, the list callback of each template that declares one:
    the resources each returned, and the handler state at the end. *)
Inductive enumerated
  : list RegisteredResourceTemplate → HState →
    list (RegisteredResourceTemplate * list Resource) → HState → Prop :=
| enumerated_nil h : enumerated [] h [] h
| enumerated_skip template templates h results h' :
    tpl_listCallback template = None →
    enumerated templates h results h' →
    enumerated (template :: templates) h results h'
| enumerated_call template templates h listCallback o w result results h' :
    tpl_listCallback template = Some listCallback →
    listCallback (world h) = (o, w) →
    completed o = Normal result →
    enumerated templates (invoked h ResourceList w) results h' →
    enumerated (template :: templates) h
      ((template, resources result) :: results) h'.

(** The registries and the transport as one: what the installation of
    handlers leaves alone. *)
Definition same_registries (s s' : Server) : Prop :=
  transport s' = transport s
  ∧ _registeredTools s' = _registeredTools s
  ∧ _registeredResources s' = _registeredResources s
  ∧ _registeredResourceTemplates s' = _registeredResourceTemplates s.

Definition frames {A} (m : M Server A) : Prop :=
  ∀ s, same_registries s (m s).2.

(** The handlers a registry component installs, and the capability it
    declares. *)
Definition installs (who : Installer) : list (string * RequestHandler) :=
  match who with
  | ToolRegistry =>
      [("tools/list", ListToolsHandler); ("tools/call", CallToolHandler)]
  | ResourceRegistry =>
      [("resources/list", ListResourcesHandler);
       ("resources/templates/list", ListResourceTemplatesHandler);
       ("resources/read", ReadResourceHandler)]
  | _ => []
  end.

Definition feature (who : Installer) : string :=
  match who with
  | ToolRegistry => "tools"
  | ResourceRegistry => "resources"
  | _ => ""
  end.


(** The component's handlers are in place, its capability is declared, and
    no transport is attached. *)
Definition installed (who : Installer) (s : Server) : Prop :=
  transport s = None
  ∧ declares (_capabilities s) (feature who) = true
  ∧ Forall (λ mh, _requestHandlers s !! mh.1 = Some mh.2) (installs who).

(** No key occurs twice in a registry. *)
Definition unique_keys (s : Server) : Prop :=
  NoDup (_registeredTools s).*1
  ∧ NoDup (_registeredResources s).*1
  ∧ NoDup (_registeredResourceTemplates s).*1.

(** The capability set recorded for the peer declares the feature; nothing
    is recorded before the handshake. *)
Definition client_declares (s : Server) (feature : string) : bool :=
  match _clientCapabilities s with
  | Some c => declares c feature
  | None => false
  end.

(** The guard throws the error with this message, and so does the send that
    runs it first; the server, and with it what was sent on the transport,
    is as before. *)
Definition refuses (guard send : M Server unit) (message : string) (s : Server) : Prop :=
  guard s = (Abrupt (Error_ message), s) ∧ send s = (Abrupt (Error_ message), s).
End vocabulary.

(** ** A server for the examples *)

Definition greeting_read : @ReadResourceCallback sample :=
  λ _ _ w, (Resolves (@Build_ReadResourceResult sample [SString "Hello"]), w ++ ["greeting"]).

Definition broken_read : @ReadResourceCallback sample :=
  λ _ _ w, (Rejects (ErrorObject "disk failure"), w ++ ["broken"]).

(** the template [file:///{name}] *)
Definition files_template : @UriTemplate sample :=
  @Build_UriTemplate sample "file:///{name}"
    (λ address,
       if String.prefix "file:///" address
       then Some [("name", SString (String.substring 8 (String.length address - 8) address))]
       else None).

(** the template [mem://{name}] *)
Definition mem_template : @UriTemplate sample :=
  @Build_UriTemplate sample "mem://{name}"
    (λ address,
       if String.prefix "mem://" address
       then Some [("name", SString (String.substring 6 (String.length address - 6) address))]
       else None).

(** a template that matches every address and extracts nothing *)
Definition any_template : @UriTemplate sample :=
  @Build_UriTemplate sample "{+any}" (λ _, Some []).

Definition file_a : gmap string SampleValue :=
  {[ "uri" := SString "file:///a";
     "name" := SString "a";
     "mimeType" := SString "application/octet-stream";
     "size" := SString "3" ]}.

Definition files_list : @ListResourcesCallback sample :=
  λ w, (Resolves (@Build_ListResourcesResult sample [file_a]), w ++ ["list"]).

Definition files_read : @ReadResourceCallback sample :=
  λ _ _ w, (Returns (@Build_ReadResourceResult sample [SString "file"]), w ++ ["files"]).

Definition add_echo : @Registration sample :=
  RegisterTool (env := sample) "echo" (Some "Echoes") (Some ["text"]) echo.
Definition add_failing : @Registration sample :=
  RegisterTool (env := sample) "failing" None None failing.
Definition add_greeting : @Registration sample :=
  RegisterResource (env := sample) "greeting" "mem://greeting" None greeting_read.
Definition add_broken : @Registration sample :=
  RegisterResource (env := sample) "broken" "mem://broken"
    (Some {[ "mimeType" := SString "text/plain" ]}) broken_read.
Definition add_files : @Registration sample :=
  RegisterTemplate (env := sample) "files" files_template
    (Some {[ "mimeType" := SString "text/plain" ]}) (Some files_list) files_read.
Definition add_any : @Registration sample :=
  RegisterTemplate (env := sample) "any" any_template None None greeting_read.

Definition files_entry : @RegisteredResourceTemplate sample :=
  @Build_RegisteredResourceTemplate sample files_template
    (Some {[ "mimeType" := SString "text/plain" ]}) (Some files_list) files_read.
Definition any_entry : @RegisteredResourceTemplate sample :=
  @Build_RegisteredResourceTemplate sample any_template None None greeting_read.
Definition fresh_server : @Server sample := new_Server sample_info None.

(** a server with two resources and two templates *)
Definition resource_server : @Server sample :=
  (register_all owner_guard [add_greeting; add_broken; add_files; add_any] fresh_server).2.

(** a server with a transport attached *)
Definition connected_server : @Server sample := (connect fresh_server).2.

Definition nine_read : @ReadResourceCallback sample :=
  λ _ _ w, (Returns (@Build_ReadResourceResult sample [SString "nine"]), w ++ ["9"]).
Definition ten_read : @ReadResourceCallback sample :=
  λ _ _ w, (Returns (@Build_ReadResourceResult sample [SString "ten"]), w ++ ["10"]).

(** the template [mem://{name}] under two names: "10" registered first,
    "9" second *)
Definition numbered_server : @Server sample :=
  (register_all owner_guard
     [RegisterTemplate (env := sample) "10" mem_template None None ten_read;
      RegisterTemplate (env := sample) "9" mem_template None None nine_read]
     fresh_server).2.

(** a guard that refuses every method that has a handler *)
Definition strict_guard (who : Installer) (handlers : gmap string RequestHandler)
    (method : string) : option string :=
  match handlers !! method with
  | Some _ => Some ("A request handler for " +:+ method
                    +:+ " already exists, which would be overridden")
  | None => None
  end.

(** a fixed resource registered at an address with no scheme *)
Definition schemeless_server : @Server sample :=
  (register owner_guard
     (RegisterResource (env := sample) "greeting" "greeting" None greeting_read)
     fresh_server).2.

(** a list callback that rejects *)
Definition broken_list : @ListResourcesCallback sample :=
  λ w, (Rejects (ErrorObject "listing failed"), w ++ ["broken list"]).

Definition unlisted_entry : @RegisteredResourceTemplate sample :=
  @Build_RegisteredResourceTemplate sample mem_template None (Some broken_list)
    greeting_read.
Definition more_entry : @RegisteredResourceTemplate sample :=
  @Build_RegisteredResourceTemplate sample any_template None (Some files_list)
    greeting_read.

(** three templates with list callbacks, the second of which rejects *)
Definition listing_server : @Server sample :=
  (register_all owner_guard
     [add_files;
      RegisterTemplate (env := sample) "unlisted" mem_template None (Some broken_list)
        greeting_read;
      RegisterTemplate (env := sample) "more" any_template None (Some files_list)
        greeting_read]
     fresh_server).2.

(** a server with the template "files" only *)
Definition files_server : @Server sample :=
  (register owner_guard add_files fresh_server).2.

(** servers constructed with capabilities in the options *)
Definition tools_server : @Server sample :=
  new_Server sample_info (Some {[ "tools" := ∅ ]}).
Definition logging_tools_server : @Server sample :=
  new_Server sample_info (Some {[ "tools" := ∅; "logging" := ∅ ]}).

(** ** The rest of the class *)

Section more_of_the_class.
Context {env : Environment}.

(** [getClientCapabilities], [getClientVersion] *)
Definition getClientCapabilities : M Server (option Capabilities) :=
  gets _clientCapabilities.
Definition getClientVersion : M Server (option Implementation) :=
  gets _clientVersion.

(** What stands in the rest arguments of [tool]: a string, a raw shape (an
    object) or a callback (a function). *)
Inductive ToolArgument :=
| ToolString (s : string)
| ToolShape (shape : ZodRawShape)
| ToolFunction (cb : ToolCallback).

(** [rest.shift() as ZodRawShape], [rest[0] as ToolCallback]: a cast says
    what the argument is taken for; a call in which the argument is
    something else is outside the declared overloads and gets no meaning. *)
Definition as_ZodRawShape (a : ToolArgument) : option ZodRawShape :=
  match a with
  | ToolShape shape => Some shape
  | _ => None
  end.

Definition as_ToolCallback (a : ToolArgument) : option ToolCallback :=
  match a with
  | ToolFunction cb => Some cb
  | _ => None
  end.

(** [tool(name, ...rest)], with the rest arguments as they come: a string
    in front is the description, and of what is left, when it is more than
    one argument, the first is the parameter schema; the callback is what
    then stands in front. The duplicate check, the registry assignment and
    the installation are those of [tool]. *)
Definition tool_rest (guard : Installer → gmap string RequestHandler → string → option string)
    (name : string) (rest : list ToolArgument) : option (M Server unit) :=
  let '(description, rest) :=
    match rest with
    | ToolString d :: rest' => (Some d, rest')
    | _ => (None, rest)
    end in
  let '(paramsSchema, rest) :=
    if decide (1 < length rest) then (head rest, tail rest) else (None, rest) in
  match head rest with
  | Some a =>
      match as_ToolCallback a, paramsSchema with
      | Some cb, None => Some (tool guard name description None cb)
      | Some cb, Some p =>
          match as_ZodRawShape p with
          | Some shape => Some (tool guard name description (Some shape) cb)
          | None => None
          end
      | None, _ => None
      end
  | None => None
  end.

(** What stands in the rest arguments of [resource]: the metadata (an
    object) or a callback (a function), taken by the casts for a list
    callback or a read callback. *)
Inductive ResourceArgument :=
| ResourceObject (metadata : ResourceMetadata)
| ListFunction (cb : ListResourcesCallback)
| ReadFunction (cb : ReadResourceCallback).

Definition as_ListResourcesCallback (a : ResourceArgument)
  : option ListResourcesCallback :=
  match a with
  | ListFunction cb => Some cb
  | _ => None
  end.

Definition as_ReadResourceCallback (a : ResourceArgument)
  : option ReadResourceCallback :=
  match a with
  | ReadFunction cb => Some cb
  | _ => None
  end.

(** [resource(name, uriOrTemplate, ...rest)], with the rest arguments as
    they come: an object in front is the metadata, and of what is left, when
    it is more than one argument, the first is the list callback; the read
    callback is what then stands in front. *)
Definition resource_rest (guard : Installer → gmap string RequestHandler → string → option string)
    (name : string) (uriOrTemplate : string + UriTemplate)
    (rest : list ResourceArgument) : option (M Server unit) :=
  let '(metadata, rest) :=
    match rest with
    | ResourceObject m :: rest' => (Some m, rest')
    | _ => (None, rest)
    end in
  let '(listCallback, rest) :=
    if decide (1 < length rest) then (head rest, tail rest) else (None, rest) in
  match head rest with
  | Some a =>
      match as_ReadResourceCallback a, listCallback with
      | Some readCallback, None =>
          Some (resource guard name uriOrTemplate metadata None readCallback)
      | Some readCallback, Some l =>
          match as_ListResourcesCallback l with
          | Some lc =>
              Some (resource guard name uriOrTemplate metadata (Some lc) readCallback)
          | None => None
          end
      | None, _ => None
      end
  | None => None
  end.

(** A tool as tools/list shows it. *)
Definition listed_tool (kv : string * RegisteredTool) : Tool :=
  {| tool_name := kv.1;
     tool_description := description kv.2;
     tool_inputSchema :=
       match inputSchema kv.2 with
       | Some schema => JsonSchema (zodToJsonSchema schema)
       | None => EMPTY_OBJECT_JSON_SCHEMA
       end |}.

(** A template as resources/templates/list shows it. *)
Definition listed_template (kv : string * RegisteredResourceTemplate)
  : ResourceTemplate :=
  spread {[ "name" := Str kv.1;
            "uriTemplate" := Str (uriTemplate_toString (tpl_uriTemplate kv.2)) ]}
    (tpl_metadata kv.2).

(** The templates that declare a list callback. *)
Definition listing (templates : list RegisteredResourceTemplate)
  : list RegisteredResourceTemplate :=
  filter (λ t, is_Some (tpl_listCallback t)) templates.

(** The registration left everything but the registries as it was. *)
Definition same_protocol_state (s s' : Server) : Prop :=
  transport s' = transport s
  ∧ _requestHandlers s' = _requestHandlers s
  ∧ _capabilities s' = _capabilities s
  ∧ _clientCapabilities s' = _clientCapabilities s
  ∧ _clientVersion s' = _clientVersion s
  ∧ _serverInfo s' = _serverInfo s.
End more_of_the_class.

(** * Facts *)

(** ** Dictionaries *)

Section dict_facts.
Context {V : Type}.
Implicit Types (d : list (string * V)) (k : string) (v : V).

Lemma dict_get_set_eq k v d : dict_get k (dict_set k v d) = Some v.
Proof.
  induction d as [|[k' v'] d IH]; simpl.
  - by rewrite decide_True.
  - destruct (decide (k = k')) as [->|Hne]; simpl.
    + by rewrite decide_True.
    + by rewrite decide_False.
Qed.

Lemma dict_get_set_ne k k' v d :
  k ≠ k' → dict_get k' (dict_set k v d) = dict_get k' d.
Proof.
  intros Hne. induction d as [|[k0 v0] d IH]; simpl.
  - rewrite decide_False; [done | congruence].
  - destruct (decide (k = k0)) as [->|Hk]; simpl.
    + rewrite !decide_False; [done | congruence | congruence].
    + by rewrite IH.
Qed.

(** A new key goes after the keys already there. *)
Lemma dict_set_fresh k v d : dict_get k d = None → dict_set k v d = d ++ [(k, v)].
Proof.
  induction d as [|[k' v'] d IH]; simpl; [done|].
  destruct (decide (k = k')); [done|]. intros Hd. by rewrite IH.
Qed.

Lemma dict_get_None k d : dict_get k d = None ↔ k ∉ d.*1.
Proof.
  induction d as [|[k' v'] d IH]; simpl.
  - split; [|done]. intros _ Hk. inversion Hk.
  - rewrite not_elem_of_cons. destruct (decide (k = k')) as [->|Hne].
    + split; [done|]. by intros [[] _].
    + rewrite IH. split; [by split|]. by intros [_ Hk].
Qed.

Lemma dict_set_NoDup k v d :
  dict_get k d = None → NoDup d.*1 → NoDup (dict_set k v d).*1.
Proof.
  intros Hk Hd. rewrite dict_set_fresh by done. rewrite fmap_app. simpl.
  apply NoDup_app. split; [done|]. split; [|apply NoDup_singleton].
  intros k' Hk' ->%list_elem_of_singleton. by apply dict_get_None in Hk.
Qed.

Lemma Object_get_own k v d : dict_get k d = Some v → Object_get k d = Own v.
Proof. unfold Object_get. by intros ->. Qed.

Lemma Object_get_undefined k d :
  dict_get k d = None → inherited k = false → Object_get k d = Undefined.
Proof. unfold Object_get. by intros -> ->. Qed.

Lemma Object_get_inherited k d :
  dict_get k d = None → inherited k = true → Object_get k d = Inherited.
Proof. unfold Object_get. by intros -> ->. Qed.

Lemma index_keys_names d :
  Forall (λ kv, array_index kv.1 = None) d → index_keys d = [] ∧ name_keys d = d.
Proof.
  induction 1 as [|kv d Hkv _ [IH1 IH2]]; simpl; [done|].
  rewrite Hkv. by rewrite IH1, IH2.
Qed.

(** When no key is an array index, enumeration is in the order of creation. *)
Lemma Object_entries_names d :
  Forall (λ kv, array_index kv.1 = None) d → Object_entries d = d.
Proof.
  intros Hd. unfold Object_entries.
  by destruct (index_keys_names d Hd) as [-> ->].
Qed.
End dict_facts.

(** No name of [Object.prototype] holds a colon. *)
Lemma inherited_no_colon k : inherited k = true → has_colon k = false.
Proof.
  unfold inherited. intros Hk%bool_decide_eq_true.
  repeat (apply elem_of_cons in Hk as [->|Hk]; [reflexivity|]).
  inversion Hk.
Qed.

(** The string form of a URL is no name of [Object.prototype]. *)
Lemma URL_toString_own `{Environment} s u :
  URL_new s = Some u → inherited (URL_toString u) = false.
Proof.
  intros Hu%URL_toString_colon.
  destruct (inherited (URL_toString u)) eqn:Hi; [|done].
  apply inherited_no_colon in Hi. congruence.
Qed.

(** ** Running the monad *)

Ltac run :=
  unfold mbind, M_bind, bind, mret, M_ret, ret, throw, gets, modify in *;
  simpl in *.

Section registration_facts.
Context {env : Environment}.
Variable guard : Installer → gmap string RequestHandler → string → option string.
Implicit Types (s : Server) (r : Registration).

Lemma same_registries_refl s : same_registries s s.
Proof. by repeat split. Qed.

Lemma same_registries_trans s1 s2 s3 :
  same_registries s1 s2 → same_registries s2 s3 → same_registries s1 s3.
Proof.
  intros (?&?&?&?) (?&?&?&?). repeat split; congruence.
Qed.

Lemma frames_bind {A B} (m : M Server A) (k : A → M Server B) :
  frames m → (∀ a, frames (k a)) → frames (m ≫= k).
Proof.
  intros Hm Hk s. run. specialize (Hm s).
  destruct (m s) as [[a|t] s1]; simpl in *; [|done].
  eapply same_registries_trans; [exact Hm | apply Hk].
Qed.

Lemma frames_assertCanSetRequestHandler who method :
  frames (assertCanSetRequestHandler guard who method).
Proof.
  intros s. unfold assertCanSetRequestHandler. run.
  destruct (guard _ _ _); apply same_registries_refl.
Qed.

Lemma frames_registerCapabilities c : frames (registerCapabilities c).
Proof.
  intros s. unfold registerCapabilities. run.
  destruct (transport s); by repeat split.
Qed.

(** The three capability guards only look. *)
Lemma assertRequestHandlerCapability_state method s :
  (assertRequestHandlerCapability method s).2 = s.
Proof.
  unfold assertRequestHandlerCapability. run. by repeat case_match.
Qed.

Lemma assertCapabilityForMethod_state method s :
  (assertCapabilityForMethod method s).2 = s.
Proof.
  unfold assertCapabilityForMethod. run. by repeat case_match.
Qed.

Lemma assertNotificationCapability_state method s :
  (assertNotificationCapability method s).2 = s.
Proof.
  unfold assertNotificationCapability. run. by repeat case_match.
Qed.

Lemma frames_setRequestHandler method handler :
  frames (setRequestHandler method handler).
Proof.
  intros s. unfold setRequestHandler. run.
  pose proof (assertRequestHandlerCapability_state method s) as Hs.
  destruct (assertRequestHandlerCapability method s) as [[[]|t] s']; simpl in *;
    subst s'; by repeat split.
Qed.

Ltac frames_steps :=
  repeat first
    [ apply frames_assertCanSetRequestHandler
    | apply frames_registerCapabilities
    | apply frames_setRequestHandler
    | apply frames_bind; [|intros _] ].

Lemma frames_setToolRequestHandlers : frames (setToolRequestHandlers guard).
Proof.
  unfold setToolRequestHandlers. frames_steps.
Qed.

Lemma frames_setResourceRequestHandlers : frames (setResourceRequestHandlers guard).
Proof.
  unfold setResourceRequestHandlers. frames_steps.
Qed.

(** With a transport attached, installing a registry's handlers throws: at
    the latest when it comes to declaring the capability. *)
Lemma setToolRequestHandlers_attached s :
  is_Some (transport s) →
  (∃ t, (setToolRequestHandlers guard s).1 = Abrupt t)
  ∧ (Forall (λ m, guard ToolRegistry (_requestHandlers s) m = None)
       (methods ToolRegistry) →
     (setToolRequestHandlers guard s).1
     = Abrupt (Error_ "Cannot register capabilities after connecting to transport")).
Proof.
  intros [wire Hwire].
  unfold setToolRequestHandlers, assertCanSetRequestHandler, registerCapabilities.
  run. split.
  - do 2 (destruct (guard _ _ _); simpl; [by eexists|]).
    rewrite Hwire. by eexists.
  - intros Hg. apply Forall_cons in Hg as [-> Hg]. apply Forall_cons in Hg as [-> _].
    simpl. by rewrite Hwire.
Qed.

Lemma setResourceRequestHandlers_attached s :
  is_Some (transport s) →
  (∃ t, (setResourceRequestHandlers guard s).1 = Abrupt t)
  ∧ (Forall (λ m, guard ResourceRegistry (_requestHandlers s) m = None)
       (methods ResourceRegistry) →
     (setResourceRequestHandlers guard s).1
     = Abrupt (Error_ "Cannot register capabilities after connecting to transport")).
Proof.
  intros [wire Hwire].
  unfold setResourceRequestHandlers, assertCanSetRequestHandler, registerCapabilities.
  run. split.
  - do 3 (destruct (guard _ _ _); simpl; [by eexists|]).
    rewrite Hwire. by eexists.
  - intros Hg. apply Forall_cons in Hg as [-> Hg]. apply Forall_cons in Hg as [-> Hg].
    apply Forall_cons in Hg as [-> _]. simpl. by rewrite Hwire.
Qed.

(** A guard that refuses every method that has a handler makes any further
    registration throw once the component is installed: the handlers are
    installed anew on every registration. *)
Lemma register_refused_when_installed r s :
  (∀ who handlers method,
     is_Some (handlers !! method) → is_Some (guard who handlers method)) →
  installed (kind r) s →
  ¬ registered (key r) s →
  ∃ message, (register guard r s).1 = Abrupt (Error_ message).
Proof.
  intros Hstrict (_ & _ & Hh) Hfresh.
  destruct r as [name d p cb|name uri m rc|name t m lc rc]; simpl in *;
    apply eq_None_not_Some in Hfresh;
    apply Forall_cons in Hh as [Hfirst _]; simpl in Hfirst;
    unfold tool, registerResource, registerResourceTemplate,
      setToolRequestHandlers, setResourceRequestHandlers,
      assertCanSetRequestHandler, Object_get; run; rewrite Hfresh;
    (destruct (inherited _); simpl; [by eexists|]).
  - destruct (Hstrict ToolRegistry (_requestHandlers s) "tools/list") as [msg ->];
      [by eexists|]. by eexists.
  - destruct (Hstrict ResourceRegistry (_requestHandlers s) "resources/list")
      as [msg ->]; [by eexists|]. by eexists.
  - destruct (Hstrict ResourceRegistry (_requestHandlers s) "resources/list")
      as [msg ->]; [by eexists|]. by eexists.
Qed.

(** C8. Registering under a tool name that is already in the tool registry
    throws the configuration error at once and leaves the server, and with
    it the entry of the first registration, as it was; so does registering a
    fixed resource at an address already registered and a template under a
    template name already registered. *)
Theorem duplicate_registration_rejected r s :
  registered (key r) s →
  register guard r s = (Abrupt (Error_ (already_registered (key r))), s)
  ∧ ∀ first, key first = key r → stored first s →
             stored first (register guard r s).2.
Proof.
  intros Hr.
  assert (register guard r s = (Abrupt (Error_ (already_registered (key r))), s)) as ->.
  { destruct r; simpl in *; destruct Hr as [e He];
      unfold tool, registerResource, registerResourceTemplate; run;
      by rewrite (Object_get_own _ _ _ He). }
  by split.
Qed.

(** A registration under a key that has no entry but names a member of
    [Object.prototype] throws the already-registered error and leaves the
    server as it was. *)
Lemma register_inherited r s :
  ¬ registered (key r) s →
  inherited (key_name (key r)) = true →
  register guard r s = (Abrupt (Error_ (already_registered (key r))), s).
Proof.
  intros Hfresh Hi.
  destruct r; simpl in *; apply eq_None_not_Some in Hfresh;
    unfold tool, registerResource, registerResourceTemplate; run;
    by rewrite (Object_get_inherited _ _ Hfresh Hi).
Qed.

(** C10. A registration under a key that is not yet registered and names no
    member of [Object.prototype] puts its entry into the registry before the
    handlers are installed and the capability declared: the entry is there
    afterwards whether or not that step threw. With a transport attached the
    step does throw, so the registration fails and the entry stays; when the
    handler guard lets the methods pass, the error is the one of declaring
    capabilities after connecting. This holds for tools, fixed resources and
    templates alike. Under a key that is not registered but names a member
    of [Object.prototype], the registration throws the already-registered
    error before anything is stored: the server is as it was, and the key
    still has no entry. *)
Theorem registration_inserts_before_installing r s :
  ¬ registered (key r) s →
  (inherited (key_name (key r)) = false →
   stored r (register guard r s).2
   ∧ (is_Some (transport s) → ∃ t, (register guard r s).1 = Abrupt t)
   ∧ (is_Some (transport s) →
      Forall (λ m, guard (kind r) (_requestHandlers s) m = None) (methods (kind r)) →
      (register guard r s).1
      = Abrupt (Error_ "Cannot register capabilities after connecting to transport")))
  ∧ (inherited (key_name (key r)) = true →
     register guard r s = (Abrupt (Error_ (already_registered (key r))), s)
     ∧ ¬ registered (key r) (register guard r s).2).
Proof.
  intros Hfresh. split.
  - intros Hown.
    destruct r as [name d p cb|name uri m rc|name t m lc rc]; simpl in *;
      apply eq_None_not_Some in Hfresh;
      unfold tool, registerResource, registerResourceTemplate; run;
      rewrite (Object_get_undefined _ _ Hfresh Hown).
    + set (s1 := set_registeredTools _ s).
      pose proof (frames_setToolRequestHandlers s1) as (_ & Ht & _ & _).
      split; [|split].
      * rewrite Ht. apply dict_get_set_eq.
      * intros Hs. by apply (setToolRequestHandlers_attached s1).
      * intros Hs. by apply (setToolRequestHandlers_attached s1).
    + set (s1 := set_registeredResources _ s).
      pose proof (frames_setResourceRequestHandlers s1) as (_ & _ & Ht & _).
      split; [|split].
      * rewrite Ht. apply dict_get_set_eq.
      * intros Hs. by apply (setResourceRequestHandlers_attached s1).
      * intros Hs. by apply (setResourceRequestHandlers_attached s1).
    + set (s1 := set_registeredResourceTemplates _ s).
      pose proof (frames_setResourceRequestHandlers s1) as (_ & _ & _ & Ht).
      split; [|split].
      * rewrite Ht. apply dict_get_set_eq.
      * intros Hs. by apply (setResourceRequestHandlers_attached s1).
      * intros Hs. by apply (setResourceRequestHandlers_attached s1).
  - intros Hi. by rewrite (register_inherited r s Hfresh Hi).
Qed.

(** A registry is an object and holds a key once; the list that stands for
    it keeps this through every registration. *)
Lemma register_keeps_keys_unique r s :
  unique_keys s → unique_keys (register guard r s).2.
Proof.
  intros (Htools & Hres & Htpl).
  destruct r as [name d p cb|name uri m rc|name t m lc rc]; simpl;
    unfold tool, registerResource, registerResourceTemplate, Object_get; run.
  - destruct (dict_get name (_registeredTools s)) eqn:Hk; [done|].
    destruct (inherited name); [done|].
    set (s1 := set_registeredTools _ s).
    destruct (frames_setToolRequestHandlers s1) as (_ & H1 & H2 & H3).
    unfold unique_keys. rewrite H1, H2, H3. simpl.
    split; [by apply dict_set_NoDup|done].
  - destruct (dict_get uri (_registeredResources s)) eqn:Hk; [done|].
    destruct (inherited uri); [done|].
    set (s1 := set_registeredResources _ s).
    destruct (frames_setResourceRequestHandlers s1) as (_ & H1 & H2 & H3).
    unfold unique_keys. rewrite H1, H2, H3. simpl.
    split; [done|]. split; [by apply dict_set_NoDup|done].
  - destruct (dict_get name (_registeredResourceTemplates s)) eqn:Hk; [done|].
    destruct (inherited name); [done|].
    set (s1 := set_registeredResourceTemplates _ s).
    destruct (frames_setResourceRequestHandlers s1) as (_ & H1 & H2 & H3).
    unfold unique_keys. rewrite H1, H2, H3. simpl.
    split; [done|]. split; [done|]. by apply dict_set_NoDup.
Qed.

(** No registration, whatever its arguments and its outcome, replaces or
    removes an entry: what a registry holds under a key before the call it
    holds under that key after it. The lookup before the assignment lets
    the assignment reach only keys that have no entry. *)
Theorem register_preserves_entries r s :
  (∀ name entry,
     dict_get name (_registeredTools s) = Some entry →
     dict_get name (_registeredTools (register guard r s).2) = Some entry)
  ∧ (∀ uri entry,
       dict_get uri (_registeredResources s) = Some entry →
       dict_get uri (_registeredResources (register guard r s).2) = Some entry)
  ∧ (∀ name entry,
       dict_get name (_registeredResourceTemplates s) = Some entry →
       dict_get name (_registeredResourceTemplates (register guard r s).2)
       = Some entry).
Proof.
  destruct r as [name d p cb|name uri m rc|name t m lc rc]; simpl;
    unfold tool, registerResource, registerResourceTemplate, Object_get; run.
  - destruct (dict_get name (_registeredTools s)) eqn:Hk; [done|].
    destruct (inherited name); [done|].
    set (s1 := set_registeredTools _ s).
    destruct (frames_setToolRequestHandlers s1) as (_ & H1 & H2 & H3).
    rewrite H1, H2, H3. simpl. split; [|done].
    intros name' entry He. rewrite dict_get_set_ne; [done|]. congruence.
  - destruct (dict_get uri (_registeredResources s)) eqn:Hk; [done|].
    destruct (inherited uri); [done|].
    set (s1 := set_registeredResources _ s).
    destruct (frames_setResourceRequestHandlers s1) as (_ & H1 & H2 & H3).
    rewrite H1, H2, H3. simpl. split; [done|]. split; [|done].
    intros uri' entry He. rewrite dict_get_set_ne; [done|]. congruence.
  - destruct (dict_get name (_registeredResourceTemplates s)) eqn:Hk; [done|].
    destruct (inherited name); [done|].
    set (s1 := set_registeredResourceTemplates _ s).
    destruct (frames_setResourceRequestHandlers s1) as (_ & H1 & H2 & H3).
    rewrite H1, H2, H3. simpl. split; [done|]. split; [done|].
    intros name' entry He. rewrite dict_get_set_ne; [done|]. congruence.
Qed.
End registration_facts.

(** ** Repeated registration under a guard that lets a registry reinstall *)

Section repeated_registration.
Context {env : Environment}.
Implicit Types (s : Server) (r : Registration).
Implicit Types (guard : Installer → gmap string RequestHandler → string → option string).






Lemma declares_mergeCapabilities (c : gmap string (gmap string JSValue)) f :
  declares (mergeCapabilities c {[ f := ∅ ]}) f = true.
Proof.
  unfold declares, mergeCapabilities.
  rewrite lookup_union_with, lookup_singleton_eq. by destruct (c !! f).
Qed.

(** A successful installation leaves the component installed. *)
Lemma setToolRequestHandlers_success guard s s' :
  setToolRequestHandlers guard s = (Normal tt, s') → installed ToolRegistry s'.
Proof.
  unfold setToolRequestHandlers, assertCanSetRequestHandler, registerCapabilities,
    setRequestHandler, assertRequestHandlerCapability.
  run. do 2 (destruct (guard _ _ _); simpl; [congruence|]).
  destruct (transport s) eqn:Ht; simpl; [congruence|].
  vm_compute method_is. simpl.
  repeat (rewrite declares_mergeCapabilities; simpl).
  intros [= <-]. repeat split; simpl; [done|apply declares_mergeCapabilities|].
  repeat constructor; simpl; by simplify_map_eq.
Qed.

Lemma setResourceRequestHandlers_success guard s s' :
  setResourceRequestHandlers guard s = (Normal tt, s') →
  installed ResourceRegistry s'.
Proof.
  unfold setResourceRequestHandlers, assertCanSetRequestHandler,
    registerCapabilities, setRequestHandler, assertRequestHandlerCapability.
  run. do 3 (destruct (guard _ _ _); simpl; [congruence|]).
  destruct (transport s) eqn:Ht; simpl; [congruence|].
  vm_compute method_is. simpl.
  repeat (rewrite declares_mergeCapabilities; simpl).
  intros [= <-]. repeat split; simpl; [done|apply declares_mergeCapabilities|].
  repeat constructor; simpl; by simplify_map_eq.
Qed.

Lemma register_success guard r s s' :
  register guard r s = (Normal tt, s') → installed (kind r) s'.
Proof.
  destruct r; simpl; unfold tool, registerResource, registerResourceTemplate; run;
    case_match; try congruence;
    eauto using setToolRequestHandlers_success, setResourceRequestHandlers_success.
Qed.












(** On a server as the constructor leaves it the conditions on the server
    hold. *)
Lemma new_Server_ready info capabilities who :
  transport (new_Server info capabilities) = None
  ∧ Forall (λ mh, _requestHandlers (new_Server info capabilities) !! mh.1 = None
                  ∨ _requestHandlers (new_Server info capabilities) !! mh.1 = Some mh.2)
      (installs who)
  ∧ ∀ k, ¬ registered k (new_Server info capabilities).
Proof.
  split; [done|]. split.
  - destruct who; simpl; repeat constructor; left; by simplify_map_eq.
  - intros [] [e He]; simpl in He; discriminate.
Qed.
End repeated_registration.

(** ** The capability guards of outbound messages, and the handshake *)

Section guards.
Context {env : Environment}.
Implicit Types (s : Server).

Lemma assertCapabilityForMethod_spec method s :
  assertCapabilityForMethod method s
  = if bool_decide (method = "sampling/createMessage") then
      if client_declares s "sampling" then (Normal tt, s)
      else (Abrupt (Error_ ("Client does not support sampling (required for "
                            +:+ method +:+ ")")), s)
    else if bool_decide (method = "roots/list") then
      if client_declares s "roots" then (Normal tt, s)
      else (Abrupt (Error_ ("Client does not support listing roots (required for "
                            +:+ method +:+ ")")), s)
    else (Normal tt, s).
Proof.
  unfold assertCapabilityForMethod, client_declares, method_is. run.
  repeat case_bool_decide; try done; by destruct (_clientCapabilities s) as [c|];
    [destruct (declares c _)|].
Qed.

(** A request or notification whose guard throws leaves the server, and so
    what was sent on the transport, as it was. *)
Lemma request_refused method params s t :
  assertCapabilityForMethod method s = (Abrupt t, s) →
  request method params s = (Abrupt t, s).
Proof. intros Hg. unfold request. run. by rewrite Hg. Qed.

Lemma notification_refused method params s t :
  assertNotificationCapability method s = (Abrupt t, s) →
  notification method params s = (Abrupt t, s).
Proof. intros Hg. unfold notification. run. by rewrite Hg. Qed.

(** C9. Without the peer's sampling capability recorded,
    sampling/createMessage throws and nothing is sent; likewise roots/list
    without the peer's roots; notifications/message without own logging;
    notifications/resources/updated and notifications/resources/list_changed
    without own resources; notifications/tools/list_changed without own
    tools; notifications/prompts/list_changed without own prompts. The
    guards of ping, notifications/cancelled and notifications/progress pass
    in every state. *)
Theorem outbound_guards s params roots_params :
  (client_declares s "sampling" = false →
   refuses (assertCapabilityForMethod "sampling/createMessage") (createMessage params)
     "Client does not support sampling (required for sampling/createMessage)" s)
  ∧ (client_declares s "roots" = false →
     refuses (assertCapabilityForMethod "roots/list") (listRoots roots_params)
       "Client does not support listing roots (required for roots/list)" s)
  ∧ (declares (_capabilities s) "logging" = false →
     refuses (assertNotificationCapability "notifications/message")
       (sendLoggingMessage params)
       "Server does not support logging (required for notifications/message)" s)
  ∧ (declares (_capabilities s) "resources" = false →
     refuses (assertNotificationCapability "notifications/resources/updated")
       (sendResourceUpdated params)
       "Server does not support notifying about resources (required for notifications/resources/updated)" s
     ∧ refuses (assertNotificationCapability "notifications/resources/list_changed")
         sendResourceListChanged
         "Server does not support notifying about resources (required for notifications/resources/list_changed)" s)
  ∧ (declares (_capabilities s) "tools" = false →
     refuses (assertNotificationCapability "notifications/tools/list_changed")
       sendToolListChanged
       "Server does not support notifying of tool list changes (required for notifications/tools/list_changed)" s)
  ∧ (declares (_capabilities s) "prompts" = false →
     refuses (assertNotificationCapability "notifications/prompts/list_changed")
       sendPromptListChanged
       "Server does not support notifying of prompt list changes (required for notifications/prompts/list_changed)" s)
  ∧ assertCapabilityForMethod "ping" s = (Normal tt, s)
  ∧ assertNotificationCapability "notifications/cancelled" s = (Normal tt, s)
  ∧ assertNotificationCapability "notifications/progress" s = (Normal tt, s)
  ∧ (∀ wire, transport s = Some wire →
       ping s = (Normal tt, set_transport (Some (wire ++ [RequestMessage "ping" None])) s)).
Proof.
  assert (∀ method message p,
            assertCapabilityForMethod method s = (Abrupt (Error_ message), s) →
            refuses (assertCapabilityForMethod method) (request method p) message s)
    as Hrequest.
  { intros method message p Hg. split; [done|]. by apply request_refused. }
  assert (∀ method message p,
            assertNotificationCapability method s = (Abrupt (Error_ message), s) →
            refuses (assertNotificationCapability method) (notification method p) message s)
    as Hnotification.
  { intros method message p Hg. split; [done|]. by apply notification_refused. }
  split; [|split; [|split; [|split; [|split; [|split; [|split; [|split; [|split]]]]]]]].
  - intros Hc. apply Hrequest. rewrite assertCapabilityForMethod_spec. by rewrite Hc.
  - intros Hc. apply Hrequest. rewrite assertCapabilityForMethod_spec. by rewrite Hc.
  - intros Hc. apply Hnotification. unfold assertNotificationCapability.
    run. vm_compute method_is. simpl. by rewrite Hc.
  - intros Hc. split; apply Hnotification; unfold assertNotificationCapability;
      run; vm_compute method_is; simpl; by rewrite Hc.
  - intros Hc. apply Hnotification. unfold assertNotificationCapability.
    run. vm_compute method_is. simpl. by rewrite Hc.
  - intros Hc. apply Hnotification. unfold assertNotificationCapability.
    run. vm_compute method_is. simpl. by rewrite Hc.
  - reflexivity.
  - reflexivity.
  - reflexivity.
  - intros wire Hw. unfold ping, request. unfold mbind, M_bind, bind.
    rewrite assertCapabilityForMethod_spec. simpl. unfold send. run.
    by rewrite Hw.
Qed.

Lemma includes_elem_of (l : list string) x : includes l x = true ↔ x ∈ l.
Proof.
  induction l as [|y l IH]; simpl.
  - split; [done|]. intros Hx. inversion Hx.
  - rewrite elem_of_cons. destruct (decide (y = x)) as [->|Hne].
    + split; auto.
    + rewrite IH. split; [auto|]. intros [->|Hx]; [done|exact Hx].
Qed.

(** C7. The handshake never throws. Its result carries the requested
    version when that is one of the supported versions and the latest
    version otherwise, together with the server's current capabilities and
    identity; afterwards the peer's capabilities and identity are the
    recorded ones, whatever was recorded before, and nothing else of the
    server has changed. *)
Theorem oninitialize_negotiates request s :
  ∃ result,
    _oninitialize request s
    = (Normal result, set_client (capabilities request) (clientInfo request) s)
    ∧ (protocolVersion request ∈ SUPPORTED_PROTOCOL_VERSIONS →
       result_protocolVersion result = protocolVersion request)
    ∧ (protocolVersion request ∉ SUPPORTED_PROTOCOL_VERSIONS →
       result_protocolVersion result = LATEST_PROTOCOL_VERSION)
    ∧ result_capabilities result = _capabilities s
    ∧ result_serverInfo result = _serverInfo s
    ∧ _clientCapabilities (_oninitialize request s).2 = Some (capabilities request)
    ∧ _clientVersion (_oninitialize request s).2 = Some (clientInfo request).
Proof.
  eexists. split; [reflexivity|]. simpl. repeat split.
  - intros Hin. apply includes_elem_of in Hin. by rewrite Hin.
  - intros Hout. destruct (includes _ _) eqn:Hin; [|done].
    by apply includes_elem_of in Hin.
Qed.
End guards.

(** ** Calling tools *)

Section tool_calls.
Context {env : Environment}.
Implicit Types (s : Server) (h : HState).

(** With the arguments through the schema, the handler calls the callback
    once and answers with what it returned, or with the error result made
    of what it threw. *)
Lemma callTool_validated s name arguments extra h tool passed :
  dict_get name (_registeredTools s) = Some tool →
  validates tool arguments passed →
  callTool s name arguments extra h
  = ( Normal match (callback tool passed extra (world h)).1 with
             | Returns a | Resolves a => a
             | Throws error | Rejects error => error_result error
             end,
      invoked h (ToolCall name passed extra) (callback tool passed extra (world h)).2 ).
Proof.
  intros Ht Hv. unfold callTool, call, try_await, invoked.
  rewrite (Object_get_own _ _ _ Ht).
  destruct Hv as [Hs|schema args Hs Hp]; rewrite Hs; [|rewrite Hp]; run;
    by destruct (callback tool _ extra (world h)) as [[] w].
Qed.

(** C5. A call of a tool that is not registered, under a name that is no
    name of a member of [Object.prototype], throws the invalid-params error
    and runs no callback: the handler state, world and trace, is untouched.
    A call whose arguments the tool's input schema rejects throws the
    invalid-params error with the validation message, again with the
    handler state untouched. When the schema accepts the arguments, the one
    callback invocation recorded is that of the tool's callback on the
    parsed arguments, and a value it returns is the answer. A call of a tool
    that is not registered under a name of a member of [Object.prototype]
    throws nothing: with no callback run, the answer is the error result
    made of the engine's TypeError for calling what is no function. *)
Theorem callTool_errors s name arguments extra h :
  (dict_get name (_registeredTools s) = None →
   inherited name = false →
   callTool s name arguments extra h
   = (Abrupt (McpError InvalidParams ("Tool " +:+ name +:+ " not found")), h))
  ∧ (∀ tool schema message,
       dict_get name (_registeredTools s) = Some tool →
       inputSchema tool = Some schema →
       safeParseAsync schema arguments = ParseFailure message →
       callTool s name arguments extra h
       = (Abrupt (McpError InvalidParams
                    ("Invalid arguments for tool " +:+ name +:+ ": " +:+ message)), h))
  ∧ (∀ tool schema args,
       dict_get name (_registeredTools s) = Some tool →
       inputSchema tool = Some schema →
       safeParseAsync schema arguments = ParseSuccess args →
       ∃ result,
         callTool s name arguments extra h
         = (Normal result,
            invoked h (ToolCall name (Some args) extra)
              (callback tool (Some args) extra (world h)).2)
         ∧ ∀ a, (callback tool (Some args) extra (world h)).1 = Returns a
                ∨ (callback tool (Some args) extra (world h)).1 = Resolves a →
                result = a)
  ∧ (dict_get name (_registeredTools s) = None →
     inherited name = true →
     callTool s name arguments extra h
     = ( Normal {| content := [TextContent (TypeError_not_a_function "cb")];
                   isError := Some true |},
         h )).
Proof.
  split; [|split; [|split]].
  - intros Ht Hown. unfold callTool. by rewrite (Object_get_undefined _ _ Ht Hown).
  - intros tool schema message Ht Hs Hp. unfold callTool.
    by rewrite (Object_get_own _ _ _ Ht), Hs, Hp.
  - intros tool schema args Ht Hs Hp.
    eexists. split.
    + apply callTool_validated; [done|]. by eapply validates_schema.
    + by intros a [-> | ->].
  - intros Ht Hi. unfold callTool. by rewrite (Object_get_inherited _ _ Ht Hi).
Qed.

(** C2. When the callback of a registered tool, called after its input
    schema (if any) accepted the arguments, throws or rejects, the handler
    completes normally: its answer has exactly one content item, the text
    item holding the message of the thrown [Error] or else the string form of
    the thrown value, and [isError] set to true. *)
Theorem callTool_callback_fault s name arguments extra h tool passed f :
  dict_get name (_registeredTools s) = Some tool →
  validates tool arguments passed →
  faulted (callback tool passed extra (world h)).1 f →
  callTool s name arguments extra h
  = ( Normal {| content := [TextContent match f with
                                        | ErrorObject message => message
                                        | ThrownValue v => String_ v
                                        end];
                isError := Some true |},
      invoked h (ToolCall name passed extra) (callback tool passed extra (world h)).2 ).
Proof.
  intros Ht Hv Hf. rewrite (callTool_validated _ _ _ _ _ _ _ Ht Hv).
  by destruct Hf as [-> | ->].
Qed.
End tool_calls.

(** ** Reading and listing resources *)

Section resource_requests.
Context {env : Environment}.
Implicit Types (s : Server) (h : HState) (u : URL).

Lemma settle_completed {A} (o : Outcome A) h : settle o h = (completed o, h).
Proof. by destruct o. Qed.

(** The scan passes over the templates that do not match. *)
Lemma read_templates_skip before templates u :
  Forall (λ t, matches (URL_toString u) t = None) before →
  read_templates (before ++ templates) u = read_templates templates u.
Proof.
  induction 1 as [|t before Ht _ IH]; simpl; [done|].
  unfold matches in Ht. by rewrite Ht.
Qed.

(** What resolves is called, once, and what it settles to is the outcome. *)
Lemma readResource_resolved s requested u h readCallback variables :
  URL_new requested = Some u →
  resolves_to s u readCallback variables →
  readResource s requested h
  = ( completed (readCallback u variables (world h)).1,
      invoked h (ResourceRead u variables) (readCallback u variables (world h)).2 ).
Proof.
  intros Hu Hr. unfold readResource. rewrite Hu.
  destruct Hr as [resource Hfix|before template after variables Hfix Hvals Hno Hyes].
  - rewrite Hfix. unfold call, invoked. run.
    destruct (res_readCallback resource u None (world h)) as [o w]. simpl.
    by rewrite settle_completed.
  - rewrite Hfix, Hvals, read_templates_skip by done. simpl.
    unfold matches in Hyes. rewrite Hyes. unfold call, invoked. run.
    destruct (tpl_readCallback template u (Some variables) (world h)) as [o w].
    simpl. by rewrite settle_completed.
Qed.

Lemma readResource_unmatched s requested u h :
  URL_new requested = Some u →
  unmatched s u →
  readResource s requested h
  = (Abrupt (McpError InvalidParams ("Resource " +:+ URL_toString u +:+ " not found")), h).
Proof.
  intros Hu [Hfix Hno]. unfold readResource. rewrite Hu, Hfix.
  rewrite <- (app_nil_r (Object_values _)), read_templates_skip by done.
  done.
Qed.

(** C3, as amended. A resources/read request whose address the URL
    constructor refuses fails with that constructor's error, before any
    lookup. Otherwise the parsed address's string form is looked up among the
    fixed resources, and a resource stored under it has its read callback
    called with the parsed address, the outcome being the answer; failing
    that, the templates are scanned in the order [Object.values] gives them
    and the first whose matcher yields variables, be it none, has its read
    callback called with the parsed address and the variables, no later
    template being looked at; failing that too, the request fails with the
    invalid-params error naming the string form of the parsed address. The
    order of the scan is the order of registration when no template name is
    an array index. *)
Theorem readResource_resolution s requested h :
  match URL_new requested with
  | None => readResource s requested h = (Abrupt (InvalidURL requested), h)
  | Some u =>
      (∀ readCallback variables,
         resolves_to s u readCallback variables →
         readResource s requested h
         = ( completed (readCallback u variables (world h)).1,
             invoked h (ResourceRead u variables)
               (readCallback u variables (world h)).2 ))
      ∧ (unmatched s u →
         readResource s requested h
         = (Abrupt (McpError InvalidParams
                      ("Resource " +:+ URL_toString u +:+ " not found")), h))
      ∧ (Forall (λ kv, array_index kv.1 = None) (_registeredResourceTemplates s) →
         Object_values (_registeredResourceTemplates s)
         = (_registeredResourceTemplates s).*2)
  end.
Proof.
  destruct (URL_new requested) as [u|] eqn:Hu.
  - split; [|split].
    + intros readCallback variables Hr. by apply readResource_resolved.
    + by apply readResource_unmatched.
    + intros Hnames. unfold Object_values. by rewrite Object_entries_names.
  - unfold readResource. by rewrite Hu.
Qed.

(** C4. When a resources/read request resolves to a fixed resource or to a
    matching template and the read callback throws or rejects, the handler
    completes abruptly with that very fault: nothing catches it and no
    result is made of it. *)
Theorem readResource_fault_propagates s requested u h readCallback variables f :
  URL_new requested = Some u →
  resolves_to s u readCallback variables →
  faulted (readCallback u variables (world h)).1 f →
  (readResource s requested h).1 = Abrupt (Propagated f).
Proof.
  intros Hu Hr Hf. rewrite (readResource_resolved _ _ _ _ _ _ Hu Hr). simpl.
  by destruct Hf as [-> | ->].
Qed.

Lemma push_resources_app template rs templateResources :
  push_resources template rs templateResources
  = templateResources ++ map (with_metadata template) rs.
Proof.
  revert templateResources. induction rs as [|r rs IH]; intros acc; simpl.
  - by rewrite app_nil_r.
  - by rewrite IH, <- app_assoc.
Qed.

Lemma list_templates_enumerated templates h results h' templateResources :
  enumerated templates h results h' →
  list_templates templates templateResources h
  = (Normal (templateResources
             ++ concat (map (λ tr, map (with_metadata tr.1) tr.2) results)), h').
Proof.
  intros He. revert templateResources.
  induction He as [h|t ts h results h' Hcb _ IH
                  |t ts h cb o w result results h' Hcb Hrun Ho _ IH];
    intros acc; simpl.
  - by rewrite app_nil_r.
  - by rewrite Hcb, IH.
  - rewrite Hcb. unfold call. run. rewrite Hrun. simpl.
    rewrite settle_completed, Ho. simpl.
    rewrite IH, push_resources_app. by rewrite <- app_assoc.
Qed.

Lemma spread_lookup (metadata : option ResourceMetadata)
    (entry : gmap string JSValue) k :
  spread entry metadata !! k
  = match metadata with
    | Some m => match m !! k with
                | Some v => Some v
                | None => entry !! k
                end
    | None => entry !! k
    end.
Proof.
  unfold spread, ResourceMetadata in *. destruct metadata as [m|]; [|done].
  rewrite lookup_union. by destruct (m !! k), (entry !! k).
Qed.

(** C6. When the list callbacks of the templates that declare one all
    return, resources/list answers with the fixed resources, each as its
    address, its name and its metadata, followed by, for each of those
    templates in turn, the resources its callback returned, each with the
    template's metadata laid over it: a field of the metadata replaces the
    entry's field of the same name, and the other fields of the entry stay.
    Only templates with a list callback contribute. *)
Theorem listResources_lists s h results h' :
  enumerated (Object_values (_registeredResourceTemplates s)) h results h' →
  listResources s h
  = ( Normal {| resources :=
                  map fixed_entry (Object_entries (_registeredResources s))
                  ++ concat (map (λ tr, map (with_metadata tr.1) tr.2) results) |},
      h' )
  ∧ Forall (λ tr, is_Some (tpl_listCallback tr.1)) results
  ∧ ∀ template (r : gmap string JSValue) k,
      with_metadata template r !! k
      = match tpl_metadata template with
        | Some m => match m !! k with
                    | Some v => Some v
                    | None => r !! k
                    end
        | None => r !! k
        end.
Proof.
  intros He. split; [|split].
  - unfold listResources. run.
    rewrite (list_templates_enumerated _ _ _ _ _ He). simpl. do 4 f_equal.
    apply map_ext. by intros [a resource].
  - clear -He. induction He; [constructor|done|].
    constructor; [by eexists|done].
  - intros template r k. apply spread_lookup.
Qed.
End resource_requests.

(** * More of the class *)

(** ** Enumeration *)

Section enumeration_facts.
Context {V : Type}.
Implicit Types (d : list (string * V)).

Lemma insert_index_Permutation (x : N * (string * V)) l : insert_index x l ≡ₚ x :: l.
Proof.
  induction l as [|y l IH]; simpl; [done|].
  destruct (x.1 <? y.1)%N; [done|]. rewrite IH. apply Permutation_swap.
Qed.

(** [Object.entries] gives every own property once. *)
Lemma Object_entries_Permutation d : Object_entries d ≡ₚ d.
Proof.
  unfold Object_entries. induction d as [|kv d IH]; simpl; [done|].
  destruct (array_index kv.1) as [n|].
  - rewrite insert_index_Permutation. simpl. by rewrite IH.
  - rewrite <- Permutation_middle. by rewrite IH.
Qed.

(** A key that is no array index and is created last is enumerated last. *)
Lemma Object_entries_snoc d k v :
  array_index k = None → Object_entries (d ++ [(k, v)]) = Object_entries d ++ [(k, v)].
Proof.
  intros Hk. unfold Object_entries.
  assert (index_keys (d ++ [(k, v)]) = index_keys d ∧
          name_keys (d ++ [(k, v)]) = name_keys d ++ [(k, v)]) as [-> ->].
  { induction d as [|kv d [IH1 IH2]]; simpl.
    - by rewrite Hk.
    - destruct (array_index kv.1); by rewrite ?IH1, ?IH2. }
  by rewrite app_assoc.
Qed.
End enumeration_facts.

(** ** What a registration leaves in the registries *)

Section registry_after_registration.
Context {env : Environment}.
Variable guard : Installer → gmap string RequestHandler → string → option string.
Implicit Types (s : Server).

Lemma tool_registries name d p cb s :
  dict_get name (_registeredTools s) = None →
  inherited name = false →
  _registeredTools (tool guard name d p cb s).2
  = _registeredTools s
    ++ [(name, {| description := d; inputSchema := z_object <$> p; callback := cb |})]
  ∧ _registeredResources (tool guard name d p cb s).2 = _registeredResources s
  ∧ _registeredResourceTemplates (tool guard name d p cb s).2
    = _registeredResourceTemplates s.
Proof.
  intros Hfresh Hown. unfold tool. run. rewrite (Object_get_undefined _ _ Hfresh Hown).
  set (s1 := set_registeredTools _ s).
  destruct (frames_setToolRequestHandlers guard s1) as (_ & -> & -> & ->).
  simpl. by rewrite dict_set_fresh.
Qed.

Lemma registerResource_registries name uri m rc s :
  dict_get uri (_registeredResources s) = None →
  inherited uri = false →
  _registeredResources (registerResource guard name uri m rc s).2
  = _registeredResources s
    ++ [(uri, {| res_name := name; res_metadata := m; res_readCallback := rc |})]
  ∧ _registeredTools (registerResource guard name uri m rc s).2 = _registeredTools s
  ∧ _registeredResourceTemplates (registerResource guard name uri m rc s).2
    = _registeredResourceTemplates s.
Proof.
  intros Hfresh Hown. unfold registerResource. run.
  rewrite (Object_get_undefined _ _ Hfresh Hown).
  set (s1 := set_registeredResources _ s).
  destruct (frames_setResourceRequestHandlers guard s1) as (_ & -> & -> & ->).
  simpl. by rewrite dict_set_fresh.
Qed.

Lemma registerResourceTemplate_registries name t m lc rc s :
  dict_get name (_registeredResourceTemplates s) = None →
  inherited name = false →
  _registeredResourceTemplates (registerResourceTemplate guard name t m lc rc s).2
  = _registeredResourceTemplates s
    ++ [(name, {| tpl_uriTemplate := t; tpl_metadata := m;
                  tpl_listCallback := lc; tpl_readCallback := rc |})]
  ∧ _registeredTools (registerResourceTemplate guard name t m lc rc s).2
    = _registeredTools s
  ∧ _registeredResources (registerResourceTemplate guard name t m lc rc s).2
    = _registeredResources s.
Proof.
  intros Hfresh Hown. unfold registerResourceTemplate. run.
  rewrite (Object_get_undefined _ _ Hfresh Hown).
  set (s1 := set_registeredResourceTemplates _ s).
  destruct (frames_setResourceRequestHandlers guard s1) as (_ & -> & -> & ->).
  simpl. by rewrite dict_set_fresh.
Qed.

Lemma dict_get_snoc {V} k k' (v : V) d :
  dict_get k d = None →
  dict_get k' (d ++ [(k, v)]) = if decide (k' = k) then Some v else dict_get k' d.
Proof.
  intros Hk. rewrite <- dict_set_fresh by done.
  destruct (decide (k' = k)) as [->|Hne].
  - apply dict_get_set_eq.
  - by apply dict_get_set_ne.
Qed.
End registry_after_registration.

(** ** The listings *)

Section listing_facts.
Context {env : Environment}.
Implicit Types (s : Server) (h : HState).

Lemma map_fmap {A B} (f : A → B) (l : list A) : map f l = f <$> l.
Proof. induction l as [|a l IH]; simpl; [done|]. by rewrite IH. Qed.

Lemma listTools_listed s h :
  listTools s h = (Normal (listed_tool <$> Object_entries (_registeredTools s)), h).
Proof.
  unfold listTools. run. do 2 f_equal.
  etransitivity; [|apply map_fmap]. apply List.map_ext. by intros [name tool].
Qed.

(** tools/list answers, without running any callback, with every
    registered tool once: the answer is, up to its order, the registry entry
    by entry, each with its name, its description and the JSON schema of its
    input schema or else the empty-object schema; when no key of the
    registry is repeated, no name is repeated in the answer. *)
Theorem listTools_lists_each_tool_once s h :
  ∃ tools,
    listTools s h = (Normal tools, h)
    ∧ tools ≡ₚ listed_tool <$> _registeredTools s
    ∧ (unique_keys s → NoDup (tool_name <$> tools)).
Proof.
  eexists. split; [apply listTools_listed|]. split.
  - by rewrite Object_entries_Permutation.
  - intros (Htools & _). rewrite Object_entries_Permutation.
    rewrite <- list_fmap_compose. exact Htools.
Qed.

(** After a call of [tool] under a name that has no entry and names no
    member of [Object.prototype], the handler of tools/list reports the new
    tool besides what it reported before; the new tool comes last when its
    name is no array index. The entry is there also when the call threw
    while installing; when the call returned, the handler of tools/list is
    installed. *)
Theorem tool_then_listTools guard name d p cb s h :
  dict_get name (_registeredTools s) = None →
  inherited name = false →
  ((tool guard name d p cb s).1 = Normal tt →
   _requestHandlers (tool guard name d p cb s).2 !! "tools/list" = Some ListToolsHandler)
  ∧ ∃ tools tools',
      listTools s h = (Normal tools, h)
      ∧ listTools (tool guard name d p cb s).2 h = (Normal tools', h)
      ∧ tools' ≡ₚ tools ++ [ {| tool_name := name;
                                tool_description := d;
                                tool_inputSchema :=
                                  match p with
                                  | Some shape =>
                                      JsonSchema (zodToJsonSchema (z_object shape))
                                  | None => EMPTY_OBJECT_JSON_SCHEMA
                                  end |} ]
      ∧ (array_index name = None →
         tools' = tools ++ [ {| tool_name := name;
                                tool_description := d;
                                tool_inputSchema :=
                                  match p with
                                  | Some shape =>
                                      JsonSchema (zodToJsonSchema (z_object shape))
                                  | None => EMPTY_OBJECT_JSON_SCHEMA
                                  end |} ]).
Proof.
  intros Hfresh Hown. split.
  { intros Hok.
    destruct (tool guard name d p cb s) as [c s'] eqn:Hrun. simpl in *. subst c.
    destruct (register_success guard (RegisterTool name d p cb) s s' Hrun)
      as (_ & _ & Hh).
    by apply Forall_cons in Hh as [Hlist _]. }
  destruct (tool_registries guard name d p cb s Hfresh Hown) as (Htools & _ & _).
  do 2 eexists. split; [apply listTools_listed|]. split; [apply listTools_listed|].
  rewrite Htools. split.
  - rewrite !Object_entries_Permutation, fmap_app. simpl. unfold listed_tool at 2.
    simpl. by destruct p.
  - intros Hname. rewrite Object_entries_snoc by done. rewrite fmap_app. simpl.
    unfold listed_tool at 2. simpl. by destruct p.
Qed.

Lemma listResourceTemplates_listed s h :
  listResourceTemplates s h
  = (Normal (listed_template <$> Object_entries (_registeredResourceTemplates s)), h).
Proof.
  unfold listResourceTemplates. run. do 2 f_equal.
  etransitivity; [|apply map_fmap]. apply List.map_ext. by intros [name template].
Qed.

(** resources/templates/list answers, without running any callback, with
    every registered template once: up to its order the answer is the
    registry entry by entry, each an object with the template's name, the
    string form of its address template and its metadata, where a field of
    the metadata shows as it is, also under the keys [name] and
    [uriTemplate], and without such a field the name is the registry key. *)
Theorem listResourceTemplates_lists_each_template_once s h :
  ∃ templates,
    listResourceTemplates s h = (Normal templates, h)
    ∧ templates ≡ₚ listed_template <$> _registeredResourceTemplates s
    ∧ ∀ kv,
        (∀ (m : gmap string JSValue) k v,
           tpl_metadata kv.2 = Some m → m !! k = Some v →
           (listed_template kv : gmap string JSValue) !! k = Some v)
        ∧ (∀ (m : gmap string JSValue),
             tpl_metadata kv.2 = Some m → m !! "name" = None →
             (listed_template kv : gmap string JSValue) !! "name" = Some (Str kv.1))
        ∧ (tpl_metadata kv.2 = None →
           listed_template kv
           = {[ "name" := Str kv.1;
                "uriTemplate" := Str (uriTemplate_toString (tpl_uriTemplate kv.2)) ]}).
Proof.
  eexists. split; [apply listResourceTemplates_listed|]. split.
  - by rewrite Object_entries_Permutation.
  - intros kv. unfold listed_template. split; [|split].
    + intros m k v -> Hk. rewrite spread_lookup.
      unfold ResourceMetadata in *. by rewrite Hk.
    + intros m -> Hk. rewrite spread_lookup.
      unfold ResourceMetadata in *. rewrite Hk. by simplify_map_eq.
    + by intros ->.
Qed.
End listing_facts.

(** ** Calls after registration *)

Section calls_after_registration.
Context {env : Environment}.
Variable guard : Installer → gmap string RequestHandler → string → option string.
Implicit Types (s : Server) (h : HState).

(** After a call of [tool] under a name that has no entry and names no
    member of [Object.prototype], the handler of tools/call, given that name
    and arguments that validate against the declared shape, runs the
    registered callback on the parsed arguments, once, and answers with what
    it returned or with the error result of its fault; given any other name
    it does what it did before. The entry is there also when the call threw
    while installing; when the call returned, the handler of tools/call is
    installed. *)
Theorem tool_then_callTool name d p cb s arguments extra h passed :
  dict_get name (_registeredTools s) = None →
  inherited name = false →
  validates {| description := d; inputSchema := z_object <$> p; callback := cb |}
    arguments passed →
  ((tool guard name d p cb s).1 = Normal tt →
   _requestHandlers (tool guard name d p cb s).2 !! "tools/call" = Some CallToolHandler)
  ∧ callTool (tool guard name d p cb s).2 name arguments extra h
    = ( Normal match (cb passed extra (world h)).1 with
               | Returns a | Resolves a => a
               | Throws error | Rejects error => error_result error
               end,
        invoked h (ToolCall name passed extra) (cb passed extra (world h)).2 )
  ∧ ∀ name', name' ≠ name →
      callTool (tool guard name d p cb s).2 name' arguments extra h
      = callTool s name' arguments extra h.
Proof.
  intros Hfresh Hown Hv. split.
  { intros Hok.
    destruct (tool guard name d p cb s) as [c s'] eqn:Hrun. simpl in *. subst c.
    destruct (register_success guard (RegisterTool name d p cb) s s' Hrun)
      as (_ & _ & Hh).
    apply Forall_cons in Hh as [_ Hh]. by apply Forall_cons in Hh as [Hcall _]. }
  destruct (tool_registries guard name d p cb s Hfresh Hown) as (Htools & _ & _).
  split.
  - apply (callTool_validated _ _ _ _ _
             {| description := d; inputSchema := z_object <$> p; callback := cb |});
      [|done].
    rewrite Htools, dict_get_snoc by done. by rewrite decide_True.
  - intros name' Hne. unfold callTool, Object_get.
    rewrite Htools, dict_get_snoc by done. by rewrite decide_False.
Qed.

(** tools/call ends in one of three ways: with the invalid-params error and
    nothing run; normally after exactly one invocation, that of the callback
    of the tool registered under the name, on arguments that validated; or,
    under a name that has no entry but names a member of [Object.prototype],
    normally with the error result of the engine's TypeError and nothing
    run. *)
Theorem callTool_outcomes s name arguments extra h :
  (∃ message,
     callTool s name arguments extra h
     = (Abrupt (McpError InvalidParams message), h))
  ∨ (∃ tool passed result,
       dict_get name (_registeredTools s) = Some tool
       ∧ validates tool arguments passed
       ∧ callTool s name arguments extra h
         = ( Normal result,
             invoked h (ToolCall name passed extra)
               (callback tool passed extra (world h)).2 ))
  ∨ (dict_get name (_registeredTools s) = None
     ∧ inherited name = true
     ∧ callTool s name arguments extra h
       = ( Normal (error_result (ErrorObject (TypeError_not_a_function "cb"))), h )).
Proof.
  destruct (dict_get name (_registeredTools s)) as [tool|] eqn:Ht.
  - destruct (inputSchema tool) as [schema|] eqn:Hs.
    + destruct (safeParseAsync schema arguments) as [args|message] eqn:Hp.
      * right. left. exists tool, (Some args). eexists. split; [done|].
        assert (validates tool arguments (Some args)) as Hv
          by (by eapply validates_schema).
        split; [done|]. by apply callTool_validated.
      * left. eexists. unfold callTool. by rewrite (Object_get_own _ _ _ Ht), Hs, Hp.
    + right. left. exists tool, None. eexists. split; [done|].
      assert (validates tool arguments None) as Hv by (by apply validates_no_schema).
      split; [done|]. by apply callTool_validated.
  - destruct (inherited name) eqn:Hi.
    + right. right. split; [done|]. split; [done|].
      unfold callTool. by rewrite (Object_get_inherited _ _ Ht Hi).
    + left. eexists. unfold callTool. by rewrite (Object_get_undefined _ _ Ht Hi).
Qed.

(** With a transport attached the installation throws before it has
    written anything. *)
Lemma setToolRequestHandlers_attached_state s :
  is_Some (transport s) → (setToolRequestHandlers guard s).2 = s.
Proof.
  intros [wire Hwire].
  unfold setToolRequestHandlers, assertCanSetRequestHandler, registerCapabilities.
  run. do 2 (destruct (guard _ _ _); simpl; [done|]). by rewrite Hwire.
Qed.

Lemma setResourceRequestHandlers_attached_state s :
  is_Some (transport s) → (setResourceRequestHandlers guard s).2 = s.
Proof.
  intros [wire Hwire].
  unfold setResourceRequestHandlers, assertCanSetRequestHandler, registerCapabilities.
  run. do 3 (destruct (guard _ _ _); simpl; [done|]). by rewrite Hwire.
Qed.

(** A registration under a fresh key on a server with a transport attached
    throws and leaves the handlers, the capabilities and the transport as
    they were; as its entry is in the registry all the same, registering
    under that key again throws the already-registered error: the failed
    registration cannot be repeated. *)
Theorem failed_registration_blocks_retry r r' s :
  ¬ registered (key r) s →
  is_Some (transport s) →
  key r' = key r →
  (∃ t, (register guard r s).1 = Abrupt t)
  ∧ same_protocol_state s (register guard r s).2
  ∧ register guard r' (register guard r s).2
    = (Abrupt (Error_ (already_registered (key r))), (register guard r s).2).
Proof.
  intros Hfresh Hattached Hkey.
  destruct (inherited (key_name (key r))) eqn:Hown.
  { rewrite (register_inherited guard r s Hfresh Hown). simpl.
    split; [by eexists|]. split; [by repeat split|].
    rewrite <- Hkey in Hfresh, Hown. rewrite <- Hkey.
    apply (register_inherited guard r' s Hfresh Hown). }
  assert (∃ s1, (register guard r s).2 = s1 ∧ stored r s1 ∧ same_protocol_state s s1
                ∧ ∃ t, (register guard r s).1 = Abrupt t) as (s1 & Hs1 & Hstored & Hsame & Ht).
  { destruct r as [name d p cb|name uri m rc|name t m lc rc]; simpl in *;
      apply eq_None_not_Some in Hfresh;
      unfold tool, registerResource, registerResourceTemplate; run;
      rewrite (Object_get_undefined _ _ Hfresh Hown).
    - set (s0 := set_registeredTools _ s).
      rewrite (setToolRequestHandlers_attached_state s0) by done.
      eexists. split; [done|]. split; [apply dict_get_set_eq|]. split; [by repeat split|].
      by apply (setToolRequestHandlers_attached guard s0).
    - set (s0 := set_registeredResources _ s).
      rewrite (setResourceRequestHandlers_attached_state s0) by done.
      eexists. split; [done|]. split; [apply dict_get_set_eq|]. split; [by repeat split|].
      by apply (setResourceRequestHandlers_attached guard s0).
    - set (s0 := set_registeredResourceTemplates _ s).
      rewrite (setResourceRequestHandlers_attached_state s0) by done.
      eexists. split; [done|]. split; [apply dict_get_set_eq|]. split; [by repeat split|].
      by apply (setResourceRequestHandlers_attached guard s0). }
  rewrite Hs1. split; [done|]. split; [done|].
  assert (registered (key r') s1) as Hreg.
  { rewrite Hkey. destruct r; simpl in *; by eexists. }
  rewrite <- Hkey.
  destruct r'; simpl in *; destruct Hreg as [e He];
    unfold tool, registerResource, registerResourceTemplate; run;
    by rewrite (Object_get_own _ _ _ He).
Qed.
End calls_after_registration.

(** ** Reads after registration *)

Section reads_after_registration.
Context {env : Environment}.
Variable guard : Installer → gmap string RequestHandler → string → option string.
Implicit Types (s : Server) (h : HState) (u : URL).

(** A fixed resource registered at an address that the URL constructor
    accepts and gives back unchanged is what resources/read calls for that
    address, whether the registration returned or threw; requests for every
    other address go as before. *)
Theorem registerResource_then_readResource name uri m rc s u h :
  dict_get uri (_registeredResources s) = None →
  URL_new uri = Some u →
  URL_toString u = uri →
  readResource (registerResource guard name uri m rc s).2 uri h
  = ( completed (rc u None (world h)).1,
      invoked h (ResourceRead u None) (rc u None (world h)).2 )
  ∧ ∀ requested,
      (∀ u', URL_new requested = Some u' → URL_toString u' ≠ uri) →
      readResource (registerResource guard name uri m rc s).2 requested h
      = readResource s requested h.
Proof.
  intros Hfresh Hu Hcanonical.
  assert (inherited uri = false) as Hown.
  { rewrite <- Hcanonical. by eapply URL_toString_own. }
  destruct (registerResource_registries guard name uri m rc s Hfresh Hown)
    as (Hres & _ & Htpl).
  split.
  - apply (readResource_resolved _ _ u _ rc None); [done|].
    apply (resolves_fixed _ u
             {| res_name := name; res_metadata := m; res_readCallback := rc |}).
    rewrite Hres, Hcanonical, dict_get_snoc by done. by rewrite decide_True.
  - intros requested Hother. unfold readResource.
    destruct (URL_new requested) as [u'|] eqn:Hu'; [|done].
    rewrite Hres, Htpl, dict_get_snoc by done.
    rewrite decide_False; [done|]. by apply Hother.
Qed.

Lemma Object_values_snoc {V} (d : list (string * V)) k v :
  array_index k = None → Object_values (d ++ [(k, v)]) = Object_values d ++ [v].
Proof.
  intros Hk. unfold Object_values. rewrite Object_entries_snoc by done.
  by rewrite fmap_app.
Qed.

(** Either some template matches the address, and there is a first one, or
    none does. *)
Lemma first_match (templates : list RegisteredResourceTemplate) address :
  Forall (λ t, matches address t = None) templates
  ∨ ∃ before template after variables,
      templates = before ++ template :: after
      ∧ Forall (λ t, matches address t = None) before
      ∧ matches address template = Some variables.
Proof.
  induction templates as [|t templates IH].
  - by left.
  - destruct (matches address t) as [variables|] eqn:Ht.
    + right. exists [], t, templates, variables. by repeat split.
    + destruct IH as [Hnone|(before & t' & after & variables & -> & Hno & Hyes)].
      * left. by constructor.
      * right. exists (t :: before), t', after, variables.
        split; [done|]. split; [by constructor|done].
Qed.

(** resources/read ends in one of three ways: with the URL constructor's
    error and nothing run; with the invalid-params error naming the parsed
    address and nothing run; or with what one read callback settled to,
    that of the fixed resource or of the first matching template, after
    exactly one invocation. *)
Theorem readResource_outcomes s requested h :
  readResource s requested h = (Abrupt (InvalidURL requested), h)
  ∨ (∃ u, URL_new requested = Some u
          ∧ unmatched s u
          ∧ readResource s requested h
            = (Abrupt (McpError InvalidParams
                         ("Resource " +:+ URL_toString u +:+ " not found")), h))
  ∨ (∃ u readCallback variables,
       URL_new requested = Some u
       ∧ resolves_to s u readCallback variables
       ∧ readResource s requested h
         = ( completed (readCallback u variables (world h)).1,
             invoked h (ResourceRead u variables)
               (readCallback u variables (world h)).2 )).
Proof.
  destruct (URL_new requested) as [u|] eqn:Hu.
  - right.
    destruct (dict_get (URL_toString u) (_registeredResources s)) as [resource|] eqn:Hfix.
    + right. exists u, (res_readCallback resource), None. split; [done|].
      assert (resolves_to s u (res_readCallback resource) None) as Hr
        by (by apply resolves_fixed).
      split; [done|]. by apply readResource_resolved.
    + destruct (first_match (Object_values (_registeredResourceTemplates s))
                  (URL_toString u))
        as [Hnone|(before & t & after & variables & Hvals & Hno & Hyes)].
      * left. exists u. split; [done|]. split; [done|]. by apply readResource_unmatched.
      * right. exists u, (tpl_readCallback t), (Some variables). split; [done|].
        assert (resolves_to s u (tpl_readCallback t) (Some variables)) as Hr
          by (by eapply resolves_template).
        split; [done|]. by apply readResource_resolved.
  - left. unfold readResource. by rewrite Hu.
Qed.

(** A template registered under a name that has no entry, names no member
    of [Object.prototype] and is no array index is scanned last: a request
    that a fixed resource or an earlier template answered is answered as
    before, a request that nothing answered is answered by the new template
    when its matcher yields variables, and fails as before when it does
    not. *)
Theorem registerResourceTemplate_then_readResource name t m lc rc s requested u h :
  dict_get name (_registeredResourceTemplates s) = None →
  inherited name = false →
  array_index name = None →
  URL_new requested = Some u →
  (∀ readCallback variables,
     resolves_to s u readCallback variables →
     readResource (registerResourceTemplate guard name t m lc rc s).2 requested h
     = readResource s requested h)
  ∧ (∀ variables,
       unmatched s u →
       uriTemplate_match t (URL_toString u) = Some variables →
       readResource (registerResourceTemplate guard name t m lc rc s).2 requested h
       = ( completed (rc u (Some variables) (world h)).1,
           invoked h (ResourceRead u (Some variables))
             (rc u (Some variables) (world h)).2 ))
  ∧ (unmatched s u →
     uriTemplate_match t (URL_toString u) = None →
     readResource (registerResourceTemplate guard name t m lc rc s).2 requested h
     = readResource s requested h).
Proof.
  intros Hfresh Hown Hname Hu.
  destruct (registerResourceTemplate_registries guard name t m lc rc s Hfresh Hown)
    as (Htpl & _ & Hres).
  set (s' := (registerResourceTemplate guard name t m lc rc s).2) in *.
  set (entry := {| tpl_uriTemplate := t; tpl_metadata := m;
                   tpl_listCallback := lc; tpl_readCallback := rc |}) in *.
  assert (Object_values (_registeredResourceTemplates s')
          = Object_values (_registeredResourceTemplates s) ++ [entry]) as Hvals.
  { rewrite Htpl. by apply Object_values_snoc. }
  split; [|split].
  - intros readCallback variables Hr.
    rewrite (readResource_resolved s _ _ _ _ _ Hu Hr).
    apply readResource_resolved; [done|].
    destruct Hr as [resource Hfix|before template after variables Hfix Hv Hno Hyes].
    + apply resolves_fixed. by rewrite Hres.
    + apply (resolves_template s' u before template (after ++ [entry])); try done.
      * by rewrite Hres.
      * rewrite Hvals, Hv. by rewrite <- app_assoc.
  - intros variables [Hfix Hno] Hyes.
    apply (readResource_resolved s' _ u _ rc (Some variables)); [done|].
    apply (resolves_template s' u (Object_values (_registeredResourceTemplates s))
             entry []); try done.
    by rewrite Hres.
  - intros [Hfix Hno] Hmiss.
    rewrite (readResource_unmatched s _ _ _ Hu) by done.
    apply readResource_unmatched; [done|]. split; [by rewrite Hres|].
    rewrite Hvals. apply Forall_app. split; [done|]. by constructor.
Qed.
End reads_after_registration.

(** ** Listing resources: faults and invocations *)

Section listing_resources.
Context {env : Environment}.
Implicit Types (s : Server) (h : HState).

Lemma list_templates_app before rest templateResources h results h1 :
  enumerated before h results h1 →
  list_templates (before ++ rest) templateResources h
  = list_templates rest
      (templateResources ++ concat (map (λ tr, map (with_metadata tr.1) tr.2) results))
      h1.
Proof.
  intros He. revert templateResources.
  induction He as [h|t ts h results h' Hcb _ IH
                  |t ts h cb o w result results h' Hcb Hrun Ho _ IH];
    intros acc; simpl.
  - by rewrite app_nil_r.
  - by rewrite Hcb, IH.
  - rewrite Hcb. unfold call. run. rewrite Hrun. simpl.
    rewrite settle_completed, Ho. simpl.
    rewrite IH, push_resources_app. by rewrite <- app_assoc.
Qed.

(** When the list callbacks of the templates before it returned and the
    list callback of a template throws or rejects, resources/list fails
    with that very fault, right after that invocation: no list callback of
    a later template is run and no listing is given. *)
Theorem listResources_fault s h before template after results h1 listCallback f :
  Object_values (_registeredResourceTemplates s) = before ++ template :: after →
  enumerated before h results h1 →
  tpl_listCallback template = Some listCallback →
  faulted (listCallback (world h1)).1 f →
  listResources s h
  = (Abrupt (Propagated f), invoked h1 ResourceList (listCallback (world h1)).2).
Proof.
  intros Hvals He Hcb Hf. unfold listResources. run.
  rewrite Hvals, (list_templates_app _ _ _ _ _ _ He). simpl.
  rewrite Hcb. unfold call, invoked. run.
  destruct (listCallback (world h1)) as [o w]. simpl in *.
  rewrite settle_completed. by destruct Hf as [-> | ->].
Qed.

Lemma list_templates_trace templates templateResources h :
  ∃ n,
    trace (list_templates templates templateResources h).2
    = trace h ++ replicate n ResourceList
    ∧ n ≤ length (listing templates)
    ∧ (∀ rs, (list_templates templates templateResources h).1 = Normal rs →
             n = length (listing templates)).
Proof.
  revert templateResources h.
  induction templates as [|t templates IH]; intros acc h; simpl.
  - exists 0. by rewrite app_nil_r.
  - unfold listing. rewrite filter_cons.
    destruct (tpl_listCallback t) as [cb|] eqn:Hcb.
    + rewrite decide_True by (by eexists). simpl.
      unfold call. run. destruct (cb (world h)) as [o w]. simpl.
      rewrite settle_completed.
      destruct (completed o) as [result|thrown]; simpl.
      * destruct (IH (push_resources t (resources result) acc)
                    {| world := w; trace := trace h ++ [ResourceList] |})
          as (n & Htrace & Hle & Hall).
        exists (S n). rewrite Htrace. simpl. rewrite <- app_assoc. simpl.
        split; [done|]. split; [unfold listing in Hle; lia|].
        intros rs Hrs. f_equal. by eapply Hall.
      * exists 1. simpl. split; [done|]. split; [lia|]. intros rs Hrs. discriminate.
    + rewrite decide_False by (by intros [? ?]). apply IH.
Qed.

(** Whatever its outcome, resources/list runs list callbacks only: at most
    one for each template that declares one, and exactly one for each when
    it answers. No read callback is run. *)
Theorem listResources_invocations s h :
  ∃ n,
    trace (listResources s h).2 = trace h ++ replicate n ResourceList
    ∧ n ≤ length (listing (Object_values (_registeredResourceTemplates s)))
    ∧ (∀ result, (listResources s h).1 = Normal result →
                 n = length (listing (Object_values (_registeredResourceTemplates s)))).
Proof.
  destruct (list_templates_trace (Object_values (_registeredResourceTemplates s)) [] h)
    as (n & Htrace & Hle & Hall).
  exists n. unfold listResources. run.
  destruct (list_templates _ [] h) as [[rs|thrown] h'] eqn:Hrun; simpl in *.
  - split; [done|]. split; [done|]. intros _ _. by eapply Hall.
  - split; [done|]. split; [done|]. intros result Hres. discriminate.
Qed.
End listing_resources.

(** The list callbacks either all return, or one of them is the first to
    throw or reject. *)
Section listing_outcomes.
Context {env : Environment}.
Implicit Types (s : Server) (h : HState).

Lemma enumeration_outcomes (templates : list RegisteredResourceTemplate) h :
  (∃ results h', enumerated templates h results h')
  ∨ (∃ before template after results h1 listCallback f,
       templates = before ++ template :: after
       ∧ enumerated before h results h1
       ∧ tpl_listCallback template = Some listCallback
       ∧ faulted (listCallback (world h1)).1 f).
Proof.
  revert h. induction templates as [|t templates IH]; intros h.
  - left. exists [], h. constructor.
  - destruct (tpl_listCallback t) as [listCallback|] eqn:Hcb.
    + destruct (listCallback (world h)) as [o w] eqn:Hrun.
      assert (∀ result, completed o = Normal result →
                (∃ results h', enumerated (t :: templates) h results h')
                ∨ (∃ before template after results h1 listCallback f,
                     t :: templates = before ++ template :: after
                     ∧ enumerated before h results h1
                     ∧ tpl_listCallback template = Some listCallback
                     ∧ faulted (listCallback (world h1)).1 f)) as Hreturned.
      { intros result Ho.
        destruct (IH (invoked h ResourceList w))
          as [(results & h' & He)
             |(before & t' & after & results & h1 & lc & f & -> & He & Hlc & Hf)].
        - left. exists ((t, resources result) :: results), h'.
          by eapply enumerated_call.
        - right. exists (t :: before), t', after, ((t, resources result) :: results),
            h1, lc, f.
          split; [done|]. split; [by eapply enumerated_call|done]. }
      assert (∀ f, faulted o f →
                ∃ before template after results h1 listCallback f,
                  t :: templates = before ++ template :: after
                  ∧ enumerated before h results h1
                  ∧ tpl_listCallback template = Some listCallback
                  ∧ faulted (listCallback (world h1)).1 f) as Hfaulted.
      { intros f Hf. exists [], t, templates, [], h, listCallback, f.
        split; [done|]. split; [constructor|]. split; [done|]. by rewrite Hrun. }
      destruct o as [a|f|a|f].
      * by apply (Hreturned a).
      * right. apply (Hfaulted f). by left.
      * by apply (Hreturned a).
      * right. apply (Hfaulted f). by right.
    + destruct (IH h)
        as [(results & h' & He)
           |(before & t' & after & results & h1 & lc & f & -> & He & Hlc & Hf)].
      * left. exists results, h'. by apply enumerated_skip.
      * right. exists (t :: before), t', after, results, h1, lc, f.
        split; [done|]. split; [by apply enumerated_skip|done].
Qed.

(** resources/list ends in one of two ways: every list callback returned
    and the answer is given in the state the last of them left, or one list
    callback was the first to throw or reject and the request fails with its
    fault in the state that invocation left. *)
Theorem listResources_outcomes s h :
  (∃ results h' result,
     enumerated (Object_values (_registeredResourceTemplates s)) h results h'
     ∧ listResources s h = (Normal result, h'))
  ∨ (∃ before template after results h1 listCallback f,
       Object_values (_registeredResourceTemplates s) = before ++ template :: after
       ∧ enumerated before h results h1
       ∧ tpl_listCallback template = Some listCallback
       ∧ faulted (listCallback (world h1)).1 f
       ∧ listResources s h
         = (Abrupt (Propagated f),
            invoked h1 ResourceList (listCallback (world h1)).2)).
Proof.
  destruct (enumeration_outcomes (Object_values (_registeredResourceTemplates s)) h)
    as [(results & h' & He)
       |(before & t & after & results & h1 & lc & f & Hvals & He & Hlc & Hf)].
  - left. exists results, h'. eexists. split; [done|].
    unfold listResources. run.
    by rewrite (list_templates_enumerated _ _ _ _ _ He).
  - right. exists before, t, after, results, h1, lc, f.
    split; [done|]. split; [done|]. split; [done|]. split; [done|].
    unfold listResources. run.
    rewrite Hvals, (list_templates_app _ _ _ _ _ _ He). simpl.
    rewrite Hlc. unfold call, invoked. run.
    destruct (lc (world h1)) as [o w]. simpl in *.
    rewrite settle_completed. by destruct Hf as [-> | ->].
Qed.
End listing_outcomes.

(** ** The handshake and the guards *)

Section handshake_facts.
Context {env : Environment}.
Implicit Types (s : Server).

(** A new server has no peer recorded, and the guard of outbound requests
    passes on it for every method but sampling/createMessage and roots/list.
    After a handshake the getters give the peer's capabilities and identity
    as the request had them, and the guard of outbound requests passes for
    sampling/createMessage exactly when those capabilities declare sampling,
    for roots/list exactly when they declare roots, and for every other
    method; the guards of notifications and of handler installation decide
    as they did before the handshake. *)
Theorem handshake_then_requests info options request s method :
  getClientCapabilities (new_Server info options) = (Normal None, new_Server info options)
  ∧ getClientVersion (new_Server info options) = (Normal None, new_Server info options)
  ∧ (assertCapabilityForMethod method (new_Server info options)
     = (Normal tt, new_Server info options)
     ↔ method ≠ "sampling/createMessage" ∧ method ≠ "roots/list")
  ∧ getClientCapabilities (_oninitialize request s).2
    = (Normal (Some (capabilities request)), (_oninitialize request s).2)
  ∧ getClientVersion (_oninitialize request s).2
    = (Normal (Some (clientInfo request)), (_oninitialize request s).2)
  ∧ (assertCapabilityForMethod method (_oninitialize request s).2
     = (Normal tt, (_oninitialize request s).2)
     ↔ (method = "sampling/createMessage" →
        declares (capabilities request) "sampling" = true)
       ∧ (method = "roots/list" → declares (capabilities request) "roots" = true))
  ∧ (assertNotificationCapability method (_oninitialize request s).2).1
    = (assertNotificationCapability method s).1
  ∧ (assertRequestHandlerCapability method (_oninitialize request s).2).1
    = (assertRequestHandlerCapability method s).1.
Proof.
  split; [done|]. split; [done|]. split.
  { rewrite assertCapabilityForMethod_spec. unfold client_declares. simpl.
    repeat case_bool_decide; subst; split; try done; intros [? ?]; done. }
  split; [done|]. split; [done|]. split; [|split].
  2: { unfold assertNotificationCapability. run. by repeat case_match. }
  2: { unfold assertRequestHandlerCapability. run. by repeat case_match. }
  rewrite assertCapabilityForMethod_spec. unfold client_declares. simpl.
  repeat case_bool_decide; subst; try done.
  - destruct (declares (capabilities request) "sampling"); split; try done.
    intros [Hs _]. by specialize (Hs eq_refl).
  - destruct (declares (capabilities request) "roots"); split; try done.
    intros [_ Hr]. by specialize (Hr eq_refl).
Qed.

(** Declaring more never closes a guard: when every feature the server
    declares in one state is declared in another, and likewise every feature
    recorded for the peer, each of the three guards that passes for a method
    in the first state passes for it in the second. A guard that passes
    leaves the state as it is. *)
Theorem guards_are_monotone method s s' :
  (∀ f, declares (_capabilities s) f = true → declares (_capabilities s') f = true) →
  (∀ f, client_declares s f = true → client_declares s' f = true) →
  ((assertCapabilityForMethod method s).1 = Normal tt →
   assertCapabilityForMethod method s' = (Normal tt, s'))
  ∧ ((assertNotificationCapability method s).1 = Normal tt →
     assertNotificationCapability method s' = (Normal tt, s'))
  ∧ ((assertRequestHandlerCapability method s).1 = Normal tt →
     assertRequestHandlerCapability method s' = (Normal tt, s')).
Proof.
  intros Hown Hpeer.
  assert (∀ f, declares (_capabilities s') f = false →
               declares (_capabilities s) f = false) as Hown'.
  { intros f Hf. destruct (declares (_capabilities s) f) eqn:Hd; [|done].
    apply Hown in Hd. congruence. }
  assert (∀ f, client_declares s' f = false → client_declares s f = false) as Hpeer'.
  { intros f Hf. destruct (client_declares s f) eqn:Hd; [|done].
    apply Hpeer in Hd. congruence. }
  split; [|split].
  - rewrite !assertCapabilityForMethod_spec.
    repeat case_bool_decide; try done.
    + destruct (client_declares s' "sampling") eqn:Hd; [done|].
      by rewrite (Hpeer' _ Hd).
    + destruct (client_declares s' "roots") eqn:Hd; [done|].
      by rewrite (Hpeer' _ Hd).
  - unfold assertNotificationCapability. run.
    repeat (destruct (_ || _) || destruct (method_is _ _)); try done;
      match goal with
      | |- context [declares (_capabilities s') ?f] =>
          destruct (declares (_capabilities s') f) eqn:Hd;
          [done|by rewrite (Hown' _ Hd)]
      end.
  - unfold assertRequestHandlerCapability. run.
    repeat (destruct (_ || _) || destruct (method_is _ _)); try done;
      match goal with
      | |- context [declares (_capabilities s') ?f] =>
          destruct (declares (_capabilities s') f) eqn:Hd;
          [done|by rewrite (Hown' _ Hd)]
      end.
Qed.
End handshake_facts.

(** ** The overloads of [tool] and [resource] *)

Section overloads.
Context {env : Environment}.
Variable guard : Installer → gmap string RequestHandler → string → option string.
(** The rest arguments of [tool] are taken for what the overloads declare:
    an optional description, an optional parameter schema and the callback,
    in this order, make the call [tool] with just these; what follows the
    callback is ignored when a schema is given, and with no schema nothing
    may follow. No other argument list is one of the overloads. *)
Theorem tool_rest_overloads name rest m :
  tool_rest guard name rest = Some m
  ↔ ∃ d p cb ignored,
      rest = option_list (ToolString <$> d) ++ option_list (ToolShape <$> p)
             ++ ToolFunction cb :: ignored
      ∧ (p = None → ignored = [])
      ∧ m = tool guard name d p cb.
Proof.
  split.
  - unfold tool_rest. intros Hm.
    destruct rest as [|a rest]; [done|].
    assert (∀ rest' d,
              match (if decide (1 < length rest') then (head rest', tail rest')
                     else (None, rest')) with
              | (paramsSchema, rest0) =>
                  match head rest0 with
                  | Some a =>
                      match as_ToolCallback a, paramsSchema with
                      | Some cb, None => Some (tool guard name d None cb)
                      | Some cb, Some p =>
                          match as_ZodRawShape p with
                          | Some shape => Some (tool guard name d (Some shape) cb)
                          | None => None
                          end
                      | None, _ => None
                      end
                  | None => None
                  end
              end = Some m →
              ∃ p cb ignored,
                rest' = option_list (ToolShape <$> p) ++ ToolFunction cb :: ignored
                ∧ (p = None → ignored = [])
                ∧ m = tool guard name d p cb) as Hrest.
    { intros rest' d. destruct rest' as [|x [|y rest']]; simpl; [done| |].
      - destruct x as [?|?|cb]; simpl; try done. intros [= <-].
        by exists None, cb, [].
      - destruct y as [?|?|cb]; simpl; try done.
        destruct x as [?|shape|?]; simpl; try done. intros [= <-].
        by exists (Some shape), cb, rest'. }
    destruct a as [d|shape|cb].
    + apply Hrest in Hm as (p & cb & ignored & -> & Hp & ->).
      by exists (Some d), p, cb, ignored.
    + apply (Hrest (ToolShape shape :: rest) None) in Hm
        as (p & cb & ignored & -> & Hp & ->).
      by exists None, p, cb, ignored.
    + apply (Hrest (ToolFunction cb :: rest) None) in Hm
        as (p & cb' & ignored & -> & Hp & ->).
      by exists None, p, cb', ignored.
  - intros (d & p & cb & ignored & -> & Hp & ->).
    destruct d as [d|], p as [p|]; simpl; try done; rewrite Hp by done; done.
Qed.

(** The rest arguments of [resource] are taken for what the overloads
    declare: an optional metadata object, an optional list callback and the
    read callback, in this order; what follows the read callback is ignored
    when a list callback is given, and with none nothing may follow. With a
    string address the list callback is not passed on: the fixed resource is
    registered with the metadata and the read callback alone. *)
Theorem resource_rest_overloads name uriOrTemplate rest m :
  (resource_rest guard name uriOrTemplate rest = Some m
   ↔ ∃ metadata listCallback readCallback ignored,
       rest = option_list (ResourceObject <$> metadata)
              ++ option_list (ListFunction <$> listCallback)
              ++ ReadFunction readCallback :: ignored
       ∧ (listCallback = None → ignored = [])
       ∧ m = resource guard name uriOrTemplate metadata listCallback readCallback)
  ∧ ∀ uri metadata listCallback readCallback,
      resource guard name (inl uri) metadata listCallback readCallback
      = registerResource guard name uri metadata readCallback.
Proof.
  split; [|done].
  split.
  - unfold resource_rest. intros Hm.
    destruct rest as [|a rest]; [done|].
    assert (∀ rest' md,
              match (if decide (1 < length rest') then (head rest', tail rest')
                     else (None, rest')) with
              | (listCallback, rest0) =>
                  match head rest0 with
                  | Some a =>
                      match as_ReadResourceCallback a, listCallback with
                      | Some readCallback, None =>
                          Some (resource guard name uriOrTemplate md None readCallback)
                      | Some readCallback, Some l =>
                          match as_ListResourcesCallback l with
                          | Some lc =>
                              Some (resource guard name uriOrTemplate md (Some lc)
                                      readCallback)
                          | None => None
                          end
                      | None, _ => None
                      end
                  | None => None
                  end
              end = Some m →
              ∃ lc rc ignored,
                rest' = option_list (ListFunction <$> lc) ++ ReadFunction rc :: ignored
                ∧ (lc = None → ignored = [])
                ∧ m = resource guard name uriOrTemplate md lc rc) as Hrest.
    { intros rest' md. destruct rest' as [|x [|y rest']]; simpl; [done| |].
      - destruct x as [?|?|rc]; simpl; try done. intros [= <-].
        by exists None, rc, [].
      - destruct y as [?|?|rc]; simpl; try done.
        destruct x as [?|lc|?]; simpl; try done. intros [= <-].
        by exists (Some lc), rc, rest'. }
    destruct a as [md|lc|rc].
    + apply Hrest in Hm as (lc & rc & ignored & -> & Hp & ->).
      by exists (Some md), lc, rc, ignored.
    + apply (Hrest (ListFunction lc :: rest) None) in Hm
        as (lc' & rc & ignored & -> & Hp & ->).
      by exists None, lc', rc, ignored.
    + apply (Hrest (ReadFunction rc :: rest) None) in Hm
        as (lc & rc' & ignored & -> & Hp & ->).
      by exists None, lc, rc', ignored.
  - intros (md & lc & rc & ignored & -> & Hp & ->).
    destruct md as [md|], lc as [lc|]; simpl; try done; rewrite Hp by done; done.
Qed.
End overloads.

(** * Examples *)



(** The tool "failing" throws an [Error] whose message is "boom". *)
Lemma callTool_callback_fault_witness :
  callTool (env := sample) sample_server "failing" None tt start
  = ( Normal (@Build_CallToolResult sample [TextContent "boom"] (Some true)),
      @Build_HState sample ["failing"] [ToolCall (env := sample) "failing" None tt] ).
Proof.
  apply (callTool_callback_fault (env := sample) sample_server "failing" None tt start
           (@Build_RegisteredTool sample None None failing) None (ErrorObject "boom")).
  - reflexivity.
  - apply validates_no_schema. reflexivity.
  - left. reflexivity.
Defined.

(** "file:///etc" is no fixed resource; the template "files" matches it,
    before the template "any" is looked at. "mem://nowhere" finds nothing on
    a server with tools only, and "nowhere" is refused by the URL
    constructor. *)
Lemma readResource_resolution_witness :
  readResource (env := sample) resource_server "file:///etc" start
  = ( Normal (@Build_ReadResourceResult sample [SString "file"]),
      @Build_HState sample ["files"]
        [ResourceRead (env := sample) "file:///etc" (Some [("name", SString "etc")])] )
  ∧ readResource (env := sample) sample_server "mem://nowhere" start
    = (Abrupt (McpError InvalidParams "Resource mem://nowhere not found"), start)
  ∧ readResource (env := sample) sample_server "nowhere" start = (Abrupt (InvalidURL "nowhere"), start).
Proof.
  split; [|split].
  - pose proof (readResource_resolution (env := sample) resource_server "file:///etc" start) as Hr.
    change (URL_new "file:///etc") with (Some "file:///etc" : option (@URL sample)) in Hr.
    destruct Hr as [Hr _].
    apply (Hr files_read (Some [("name", SString "etc")])).
    apply (resolves_template resource_server "file:///etc" [] files_entry [any_entry]).
    + reflexivity.
    + reflexivity.
    + constructor.
    + reflexivity.
  - pose proof (readResource_resolution (env := sample) sample_server "mem://nowhere" start) as Hr.
    change (URL_new "mem://nowhere") with (Some "mem://nowhere" : option (@URL sample)) in Hr.
    destruct Hr as (_ & Hr & _). apply Hr. split; [reflexivity|constructor].
  - exact (readResource_resolution (env := sample) sample_server "nowhere" start).
Defined.

(** A fixed resource registered at the address "greeting": a request for
    exactly that address does not reach its read callback and fails with the
    URL constructor's error, which is no invalid-params error. And of two
    matching templates registered as "10" and then "9", the one registered
    second answers. *)
Lemma readResource_counterexample :
  ( stored (RegisterResource (env := sample) "greeting" "greeting" None greeting_read)
      schemeless_server
    ∧ readResource (env := sample) schemeless_server "greeting" start
      = (Abrupt (InvalidURL "greeting"), start)
    ∧ ∀ message,
        readResource (env := sample) schemeless_server "greeting" start
        ≠ (Abrupt (McpError InvalidParams message), start) )
  ∧ ( (_registeredResourceTemplates numbered_server).*1 = ["10"; "9"]
      ∧ matches "mem://x" <$> (_registeredResourceTemplates numbered_server).*2
        = [Some [("name", SString "x")]; Some [("name", SString "x")]]
      ∧ readResource (env := sample) numbered_server "mem://x" start
        = ( Normal (@Build_ReadResourceResult sample [SString "nine"]),
            @Build_HState sample ["9"]
              [ResourceRead (env := sample) "mem://x" (Some [("name", SString "x")])] ) ).
Proof.
  split.
  - split; [reflexivity|]. split; [reflexivity|]. intros message. discriminate.
  - split; [reflexivity|]. split; reflexivity.
Qed.

(** The read callback of "mem://broken" rejects. *)
Lemma readResource_fault_propagates_witness :
  (readResource (env := sample) resource_server "mem://broken" start).1
  = Abrupt (Propagated (ErrorObject "disk failure")).
Proof.
  apply (readResource_fault_propagates (env := sample) resource_server "mem://broken" "mem://broken"
           start broken_read None (ErrorObject "disk failure")).
  - reflexivity.
  - apply (resolves_fixed resource_server "mem://broken"
             (@Build_RegisteredResource sample "broken"
                (Some {[ "mimeType" := SString "text/plain" ]}) broken_read)).
    reflexivity.
  - right. reflexivity.
Defined.

(** An unknown tool, arguments the schema of "echo" rejects, arguments it
    accepts, and the name "toString", under which no tool is registered. *)
Lemma callTool_errors_witness :
  callTool (env := sample) sample_server "nope" None tt start
  = (Abrupt (McpError InvalidParams "Tool nope not found"), start)
  ∧ callTool (env := sample) sample_server "echo" (Some (SObject [])) tt start
    = (Abrupt (McpError InvalidParams "Invalid arguments for tool echo: Required"), start)
  ∧ (∃ result,
       callTool (env := sample) sample_server "echo"
         (Some (SObject [("text", "hi"); ("more", "x")])) tt start
       = ( Normal result,
           @Build_HState sample ["echo"]
             [ToolCall (env := sample) "echo" (Some (SObject [("text", "hi")])) tt] )
       ∧ result = text_result (env := sample) "hi")
  ∧ dict_get "toString" (_registeredTools sample_server) = None
  ∧ callTool (env := sample) sample_server "toString" None tt start
    = ( Normal (@Build_CallToolResult sample [TextContent "cb is not a function"]
                  (Some true)),
        start ).
Proof.
  split; [|split; [|split; [|split]]].
  - by apply (callTool_errors (env := sample) sample_server "nope" None tt start).
  - eapply (callTool_errors (env := sample) sample_server "echo" (Some (SObject [])) tt start);
      reflexivity.
  - destruct (callTool_errors (env := sample) sample_server "echo"
                (Some (SObject [("text", "hi"); ("more", "x")])) tt start)
      as (_ & _ & Hok & _).
    destruct (Hok (@Build_RegisteredTool sample (Some "Echoes") (Some ["text"]) echo)
                ["text"] (SObject [("text", "hi")]) eq_refl eq_refl eq_refl)
      as (result & Hcall & Hres).
    exists result. split; [exact Hcall|]. apply Hres. right. reflexivity.
  - reflexivity.
  - by apply (callTool_errors (env := sample) sample_server "toString" None tt start).
Defined.

(** Two fixed resources, then what the list callback of "files" returned
    with the template's mimeType in place of the entry's; the template
    "any" has no list callback. *)
Lemma listResources_lists_witness :
  listResources (env := sample) resource_server start
  = ( Normal
        (@Build_ListResourcesResult sample
           ([ {[ "uri" := SString "mem://greeting"; "name" := SString "greeting" ]};
              {[ "mimeType" := SString "text/plain" ]}
              ∪ {[ "uri" := SString "mem://broken"; "name" := SString "broken" ]};
              {[ "mimeType" := SString "text/plain" ]} ∪ file_a ]
            : list (gmap string SampleValue))),
      @Build_HState sample ["list"] [ResourceList] ).
Proof.
  refine (proj1 (listResources_lists (env := sample) resource_server start
                   [(files_entry, [file_a])]
                   (@Build_HState sample ["list"] [ResourceList]) _)).
  change (Object_values (_registeredResourceTemplates resource_server))
    with [files_entry; any_entry].
  apply (enumerated_call (env := sample) files_entry [any_entry] start files_list
           (Resolves (@Build_ListResourcesResult sample [file_a])) ["list"]
           (@Build_ListResourcesResult sample [file_a]) []);
    [reflexivity|reflexivity|reflexivity|].
  apply enumerated_skip; [reflexivity|]. apply enumerated_nil.
Defined.

(** Registering "echo" twice. *)
Lemma duplicate_registration_rejected_witness :
  register (env := sample) owner_guard add_echo sample_server
  = (Abrupt (Error_ "Tool echo is already registered"), sample_server).
Proof.
  refine (proj1 (duplicate_registration_rejected (env := sample) owner_guard
                   add_echo sample_server _)).
  exists (@Build_RegisteredTool sample (Some "Echoes") (Some ["text"]) echo).
  reflexivity.
Defined.

(** A fresh server has no capabilities and no recorded peer: every guarded
    send throws; with a transport attached, ping is sent. *)
Lemma outbound_guards_witness :
  createMessage (env := sample) (SString "hello") connected_server
  = (Abrupt (Error_ "Client does not support sampling (required for sampling/createMessage)"),
     connected_server)
  ∧ sendToolListChanged (env := sample) connected_server
    = (Abrupt (Error_ "Server does not support notifying of tool list changes (required for notifications/tools/list_changed)"),
       connected_server)
  ∧ transport (ping (env := sample) connected_server).2
    = Some [RequestMessage (env := sample) "ping" None].
Proof.
  pose proof (outbound_guards (env := sample) connected_server (SString "hello") None)
    as (Hsampling & _ & _ & _ & Htools & _ & _ & _ & _ & Hping).
  split; [by apply Hsampling|]. split; [by apply Htools|].
  by rewrite (Hping [] eq_refl).
Defined.

(** Registering "echo" on a server with a transport attached, and
    registering "constructor", under which nothing is registered. *)
Lemma registration_inserts_before_installing_witness :
  stored add_echo (register (env := sample) owner_guard add_echo connected_server).2
  ∧ (register (env := sample) owner_guard add_echo connected_server).1
    = Abrupt (Error_ "Cannot register capabilities after connecting to transport")
  ∧ dict_get "constructor" (_registeredTools connected_server) = None
  ∧ register (env := sample) owner_guard
      (RegisterTool (env := sample) "constructor" None None failing) connected_server
    = (Abrupt (Error_ "Tool constructor is already registered"), connected_server).
Proof.
  assert (¬ registered (key add_echo) connected_server) as Hecho.
  { apply eq_None_not_Some. reflexivity. }
  assert (¬ registered
            (key (RegisterTool (env := sample) "constructor" None None failing))
            connected_server) as Hconstructor.
  { apply eq_None_not_Some. reflexivity. }
  destruct (registration_inserts_before_installing (env := sample) owner_guard
              add_echo connected_server Hecho)
    as (Hown & _).
  destruct (Hown eq_refl) as (Hstored & _ & Herror).
  split; [exact Hstored|]. split.
  { apply Herror; [by eexists|repeat constructor]. }
  split; [reflexivity|].
  destruct (registration_inserts_before_installing (env := sample) owner_guard
              (RegisterTool (env := sample) "constructor" None None failing)
              connected_server Hconstructor)
    as (_ & Hinherited).
  exact (proj1 (Hinherited eq_refl)).
Defined.

(** A version the server does not know is answered with the latest one. *)
Lemma oninitialize_negotiates_witness :
  (_oninitialize (env := sample)
     (@Build_InitializeRequest sample "1999-12-31" ∅
        {| impl_name := "client"; impl_version := "0.1" |}) fresh_server).1
  = Normal (@Build_InitializeResult sample "2024-11-05" ∅ sample_info).
Proof.
  destruct (oninitialize_negotiates (env := sample)
              (@Build_InitializeRequest sample "1999-12-31" ∅
                 {| impl_name := "client"; impl_version := "0.1" |}) fresh_server)
    as (result & Heq & _ & Hlatest & Hcaps & Hinfo & _).
  rewrite Heq. destruct result as [v c i]. simpl in *. f_equal.
  rewrite Hlatest, Hcaps, Hinfo; [reflexivity|].
  intros Hin. repeat (apply elem_of_cons in Hin as [Hin|Hin]; [discriminate|]).
  inversion Hin.
Defined.

(** Under a guard that refuses every method that has a handler, the tool
    "failing" cannot be registered after the tool "echo". *)
Lemma register_refused_when_installed_witness :
  ∃ message,
    (register (env := sample) strict_guard add_failing
       (register (env := sample) strict_guard add_echo fresh_server).2).1
    = Abrupt (Error_ message).
Proof.
  apply (register_refused_when_installed (env := sample) strict_guard add_failing).
  - intros who handlers method [h Hh]. unfold strict_guard. rewrite Hh. by eexists.
  - apply (register_success (env := sample) strict_guard add_echo fresh_server).
    reflexivity.
  - apply eq_None_not_Some. reflexivity.
Defined.

(** The tool "echo" registered on a new server is listed. *)
Lemma tool_then_listTools_witness :
  _requestHandlers
    (tool (env := sample) owner_guard "echo" (Some "Echoes") (Some ["text"]) echo
       fresh_server).2 !! "tools/list"
  = Some ListToolsHandler
  ∧ ∃ tools tools',
      listTools (env := sample) fresh_server start = (Normal tools, start)
      ∧ listTools (env := sample)
          (tool (env := sample) owner_guard "echo" (Some "Echoes") (Some ["text"]) echo
             fresh_server).2 start
        = (Normal tools', start)
      ∧ tools' ≡ₚ tools ++ [ @Build_Tool sample "echo" (Some "Echoes")
                                 (JsonSchema (env := sample)
                                    (SObject [("text", "string")])) ]
      ∧ (array_index "echo" = None →
         tools' = tools ++ [ @Build_Tool sample "echo" (Some "Echoes")
                               (JsonSchema (env := sample)
                                  (SObject [("text", "string")])) ]).
Proof.
  destruct (tool_then_listTools (env := sample) owner_guard "echo" (Some "Echoes")
              (Some ["text"]) echo fresh_server start eq_refl eq_refl)
    as (Hinstalled & Hlisted).
  split; [by apply Hinstalled|exact Hlisted].
Defined.

(** The tool "echo" registered on a new server is the one called. *)
Lemma tool_then_callTool_witness :
  _requestHandlers
    (tool (env := sample) owner_guard "echo" (Some "Echoes") (Some ["text"]) echo
       fresh_server).2 !! "tools/call"
  = Some CallToolHandler
  ∧ callTool (env := sample)
      (tool (env := sample) owner_guard "echo" (Some "Echoes") (Some ["text"]) echo
         fresh_server).2
      "echo" (Some (SObject [("text", "hi")])) tt start
    = ( Normal (text_result (env := sample) "hi"),
        @Build_HState sample ["echo"]
          [ToolCall (env := sample) "echo" (Some (SObject [("text", "hi")])) tt] ).
Proof.
  assert (validates (env := sample)
            (@Build_RegisteredTool sample (Some "Echoes") (Some ["text"]) echo)
            (Some (SObject [("text", "hi")])) (Some (SObject [("text", "hi")]))) as Hv.
  { apply (validates_schema (env := sample) _ _ ["text"]); reflexivity. }
  destruct (tool_then_callTool (env := sample) owner_guard "echo" (Some "Echoes")
              (Some ["text"]) echo fresh_server (Some (SObject [("text", "hi")]))
              tt start (Some (SObject [("text", "hi")])) eq_refl eq_refl Hv)
    as (Hinstalled & Hcall & _).
  split; [by apply Hinstalled|exact Hcall].
Defined.

(** "echo" registered with a transport attached, and then once more with
    another callback. *)
Lemma failed_registration_blocks_retry_witness :
  register (env := sample) owner_guard
    (RegisterTool (env := sample) "echo" None None failing)
    (register (env := sample) owner_guard add_echo connected_server).2
  = ( Abrupt (Error_ "Tool echo is already registered"),
      (register (env := sample) owner_guard add_echo connected_server).2 ).
Proof.
  assert (¬ registered (key add_echo) connected_server) as Hfresh.
  { apply eq_None_not_Some. reflexivity. }
  assert (is_Some (transport connected_server)) as Hattached by (by eexists).
  destruct (failed_registration_blocks_retry (env := sample) owner_guard add_echo
              (RegisterTool (env := sample) "echo" None None failing)
              connected_server Hfresh Hattached eq_refl) as (_ & _ & Hretry).
  exact Hretry.
Defined.

(** The resource "mem://greeting" registered on a new server is the one
    read. *)
Lemma registerResource_then_readResource_witness :
  readResource (env := sample)
    (registerResource (env := sample) owner_guard "greeting" "mem://greeting" None
       greeting_read fresh_server).2
    "mem://greeting" start
  = ( Normal (@Build_ReadResourceResult sample [SString "Hello"]),
      @Build_HState sample ["greeting"]
        [ResourceRead (env := sample) "mem://greeting" None] ).
Proof.
  refine (proj1 (registerResource_then_readResource (env := sample) owner_guard
                   "greeting" "mem://greeting" None greeting_read fresh_server
                   "mem://greeting" start _ _ _)); reflexivity.
Defined.

(** The template "any" registered after the template "files": an address
    that "files" matches is read as before, and an address that nothing
    matched is read by "any". *)
Lemma registerResourceTemplate_then_readResource_witness :
  readResource (env := sample)
    (registerResourceTemplate (env := sample) owner_guard "any" any_template None None
       greeting_read files_server).2
    "file:///etc" start
  = readResource (env := sample) files_server "file:///etc" start
  ∧ readResource (env := sample)
      (registerResourceTemplate (env := sample) owner_guard "any" any_template None None
         greeting_read files_server).2
      "mem://x" start
    = ( Normal (@Build_ReadResourceResult sample [SString "Hello"]),
        @Build_HState sample ["greeting"]
          [ResourceRead (env := sample) "mem://x" (Some [])] ).
Proof.
  split.
  - destruct (registerResourceTemplate_then_readResource (env := sample) owner_guard
                "any" any_template None None greeting_read files_server
                "file:///etc" "file:///etc" start eq_refl eq_refl eq_refl eq_refl)
      as (Hsame & _ & _).
    apply (Hsame files_read (Some [("name", SString "etc")])).
    apply (resolves_template files_server "file:///etc" [] files_entry []).
    + reflexivity.
    + reflexivity.
    + constructor.
    + reflexivity.
  - destruct (registerResourceTemplate_then_readResource (env := sample) owner_guard
                "any" any_template None None greeting_read files_server
                "mem://x" "mem://x" start eq_refl eq_refl eq_refl eq_refl)
      as (_ & Hnew & _).
    apply (Hnew []).
    + split; [reflexivity|]. constructor; [reflexivity|constructor].
    + reflexivity.
Defined.

(** The list callback of "files" returns and that of "unlisted" rejects:
    the list callback of "more" is not run. *)
Lemma listResources_fault_witness :
  listResources (env := sample) listing_server start
  = ( Abrupt (Propagated (ErrorObject "listing failed")),
      @Build_HState sample ["list"; "broken list"] [ResourceList; ResourceList] ).
Proof.
  apply (listResources_fault (env := sample) listing_server start
           [files_entry] unlisted_entry [more_entry] [(files_entry, [file_a])]
           (@Build_HState sample ["list"] [ResourceList]) broken_list
           (ErrorObject "listing failed")).
  - reflexivity.
  - apply (enumerated_call (env := sample) files_entry [] start files_list
             (Resolves (@Build_ListResourcesResult sample [file_a])) ["list"]
             (@Build_ListResourcesResult sample [file_a]) []);
      [reflexivity|reflexivity|reflexivity|].
    apply enumerated_nil.
  - reflexivity.
  - right. reflexivity.
Defined.

(** A server constructed with tools may notify of tool list changes, and so
    may one constructed with tools and logging. *)
Lemma guards_are_monotone_witness :
  assertNotificationCapability (env := sample) "notifications/tools/list_changed"
    logging_tools_server
  = (Normal tt, logging_tools_server).
Proof.
  assert (∀ f, declares (_capabilities tools_server) f = true →
               declares (_capabilities logging_tools_server) f = true) as Hown.
  { intros f Hf. destruct (decide (f = "tools")) as [->|Hne]; [reflexivity|].
    assert ((_capabilities tools_server : gmap string (gmap string SampleValue)) !! f
            = None) as Hnone.
    { apply (lookup_singleton_ne (M := gmap string)). congruence. }
    unfold declares in Hf.
    change (match (_capabilities tools_server : gmap string (gmap string SampleValue)) !! f
            with Some _ => true | None => false end = true) in Hf.
    rewrite Hnone in Hf. discriminate Hf. }
  assert (∀ f, client_declares tools_server f = true →
               client_declares logging_tools_server f = true) as Hpeer.
  { intros f Hf. discriminate Hf. }
  destruct (guards_are_monotone (env := sample) "notifications/tools/list_changed"
              tools_server logging_tools_server Hown Hpeer) as (_ & Hnotify & _).
  apply Hnotify. reflexivity.
Defined.
